(** * Campaign report exporter: a shallow embedding of
      [python/v1/generate_campaign_report.py]

    The script fetches an AdMob campaign report, flattens it to a CSV file and
    uploads that file to Google Drive as a spreadsheet.  The embedding keeps
    the three functions of the script ([generate_campaign_report],
    [save_to_csv], [upload_csv_to_google_sheets]) and [main], threading an
    explicit [world] (file system, log of outbound API calls, standard output,
    clock) through a small state-and-exception monad.

    Modelling conventions.
    - Python dictionaries are insertion ordered and the exporter depends on
      that order, so a [dict] is an association list; key uniqueness is the
      well-formedness condition [dict_wf].
    - Report rows are typed by level (row / value mapping / value wrapper /
      scalar); a missing key and an empty wrapper stay expressible, because
      the script raises [KeyError] and [IndexError] on them.
    - Scalars are [None], booleans, integers and strings; floating point
      values are left out.
    - [csv.writer] is the standard library writer with its default (excel)
      dialect; the file is opened in text mode on a POSIX system, where the
      line terminator written by the writer reaches the file unchanged.
    - The file system is flat. [save_to_csv] takes the output file to be
      openable and writable and every integer to be printable; [save_to_csv_in]
      and [main_in] lift this with an explicit [platform] that says what
      [open], a write and [str] of an integer raise.
*)

From Stdlib Require Import ZArith Ascii DecimalString.
From Stdlib Require String DecimalPos DecimalZ.
From stdpp Require Import gmap strings list.

(** ** Characters the CSV dialect cares about *)

Definition COMMA : ascii := ","%char.
Definition DQUOTE : ascii := "034"%char.
Definition CR : ascii := "013"%char.
Definition LF : ascii := "010"%char.

(** The writer's [lineterminator], carriage return then line feed. *)
Definition CRLF : string := String CR (String LF EmptyString).

(** ** Python values *)

Inductive scalar : Type :=
  | PNone
  | PBool (b : bool)
  | PInt (z : Z)
  | PStr (s : string).

(** [str(i)] for an integer. *)
Definition str_int (z : Z) : string := NilZero.string_of_int (Z.to_int z).

(** [str(v)], as used by [print] and by f-strings. *)
Definition py_str (v : scalar) : string :=
  match v with
  | PNone => "None"
  | PBool true => "True"
  | PBool false => "False"
  | PInt z => str_int z
  | PStr s => s
  end.

(** Insertion-ordered dictionaries with string keys. *)
Definition dict (V : Type) : Type := list (string * V).

Definition keys {V} (d : dict V) : list string := map fst d.
Definition values {V} (d : dict V) : list V := map snd d.

Fixpoint dict_get {V} (d : dict V) (k : string) : option V :=
  match d with
  | [] => None
  | (k', v) :: d' => if String.eqb k' k then Some v else dict_get d' k
  end.

(** Keys of a Python dictionary are pairwise distinct. *)
Fixpoint distinct (l : list string) : bool :=
  match l with
  | [] => true
  | k :: l' => negb (existsb (String.eqb k) l') && distinct l'
  end.

Definition dict_wf {V} (d : dict V) : bool := distinct (keys d).

(** ** Exceptions and results *)

Inductive exn : Type :=
  | KeyError (k : string)
  | IndexError
  | FileNotFoundError (path : string)
  | PermissionError (path : string)
  | ValueError (msg : string)
  | RemoteError (msg : string).

Inductive result (A : Type) : Type :=
  | Ok (a : A)
  | Raise (e : exn).
Arguments Ok {A} a.
Arguments Raise {A} e.

Definition rbind {A B} (r : result A) (k : A -> result B) : result B :=
  match r with
  | Ok a => k a
  | Raise e => Raise e
  end.

Notation "'let?' x ':=' r 'in' k" := (rbind r (fun x => k))
  (at level 10, x name, r at level 100, k at level 200).

(** A list comprehension whose element expression may raise: elements are
    evaluated left to right and the first exception wins. *)
Fixpoint comprehension {A B} (f : A -> result B) (l : list A) : result (list B) :=
  match l with
  | [] => Ok []
  | a :: l' =>
      let? b := f a in
      let? bs := comprehension f l' in
      Ok (b :: bs)
  end.

(** [d[k]] *)
Definition getitem {V} (d : dict V) (k : string) : result V :=
  match dict_get d k with
  | Some v => Ok v
  | None => Raise (KeyError k)
  end.

(** ** Report data *)

(** A value wrapper such as [{'value': 'US', 'displayLabel': ...}] or
    [{'integerValue': '100'}]. *)
Definition wrapper : Type := dict scalar.
(** [dimensionValues] / [metricValues]: name to wrapper. *)
Definition valmap : Type := dict wrapper.
Definition row : Type := dict valmap.
Definition report : Type := list row.
(** The decoded JSON body of the reporting call. *)
Definition response : Type := dict report.

(** ** Requests *)

Record date : Type := { year : Z; month : Z; day : Z }.
Record date_range_t : Type := { start_date : date; end_date : date }.
Record report_spec_t : Type :=
  { date_range : date_range_t;
    dimensions : list string;
    metrics : list string }.
Record request : Type := { report_spec : report_spec_t }.

Record file_metadata_t : Type := { name : string; mimeType : string }.

(** What [MediaFileUpload(filename, mimetype=..., resumable=...)] holds; the
    constructor opens the file, [media_bytes] is what it finds there. *)
Record media : Type :=
  { media_filename : string;
    media_mimetype : string;
    media_resumable : bool;
    media_bytes : string }.

(** A service object as returned by [admob_utils.authenticate]; each field
    answers one [....execute()] of the script. *)
Record service : Type :=
  { campaignReport_generate : string -> request -> result response;
    files_create : file_metadata_t -> media -> string -> result (dict scalar) }.

(** ** The world *)

Inductive api_call : Type :=
  | Authenticate (api_name : option string) (api_version : string)
                 (api_scopes : list string)
  | CampaignReportGenerate (parent : string) (body : request)
  | FilesCreate (body : file_metadata_t) (media_body : media) (fields : string).

Record world : Type :=
  { fs : gmap string string;      (* path to file content *)
    calls : list api_call;        (* outbound calls, oldest first *)
    stdout : list string;         (* printed lines, oldest first *)
    clock : string }.             (* str(time.time()) at this moment *)

(** [admob_utils] is not part of the sources at hand; its [authenticate] is
    taken as a parameter of the run. [None] as API name stands for the
    module's default. *)
Record environment : Type :=
  { authenticate : option string -> string -> list string -> result service }.

Definition M (A : Type) : Type := world -> world * result A.

Definition ret {A} (a : A) : M A := fun w => (w, Ok a).
Definition raise {A} (e : exn) : M A := fun w => (w, Raise e).
Definition bind {A B} (m : M A) (k : A -> M B) : M B :=
  fun w =>
    match m w with
    | (w', Ok a) => k a w'
    | (w', Raise e) => (w', Raise e)
    end.
Definition lift {A} (r : result A) : M A := fun w => (w, r).

Notation "'let*' x ':=' m 'in' k" := (bind m (fun x => k))
  (at level 10, x name, m at level 100, k at level 200).
Notation "m ';;' k" := (bind m (fun _ => k))
  (at level 100, k at level 200, right associativity).

Definition set_fs (f : gmap string string) (w : world) : world :=
  {| fs := f; calls := calls w; stdout := stdout w; clock := clock w |}.

Definition log_call (c : api_call) : M unit :=
  fun w => ({| fs := fs w; calls := calls w ++ [c];
               stdout := stdout w; clock := clock w |}, Ok tt).

Definition print (line : string) : M unit :=
  fun w => ({| fs := fs w; calls := calls w;
               stdout := stdout w ++ [line]; clock := clock w |}, Ok tt).

(** [str(time.time())] *)
Definition time_time_str : M string := fun w => (w, Ok (clock w)).

(** [open(path, 'w')]: create or truncate. *)
Definition open_w (path : string) : M unit :=
  fun w => (set_fs (<[path := EmptyString]> (fs w)) w, Ok tt).

(** [f.write(text)] on the handle opened at [path]. *)
Definition file_write (path text : string) : M unit :=
  fun w => (set_fs (<[path := default EmptyString (fs w !! path) +:+ text]> (fs w)) w, Ok tt).

(** [for x in l: body(x)] *)
Fixpoint for_each {A} (l : list A) (body : A -> M unit) : M unit :=
  match l with
  | [] => ret tt
  | a :: l' => body a ;; for_each l' body
  end.

(** ** [csv.writer], default dialect *)

(** Text of one field: strings as they are, [None] as the empty string,
    anything else through [str]. *)
Definition field_text (v : scalar) : string :=
  match v with
  | PNone => EmptyString
  | PStr s => s
  | _ => py_str v
  end.

(** Characters that force quoting under [QUOTE_MINIMAL]: the delimiter, the
    quote character and the characters of the line terminator. *)
Definition special (c : ascii) : bool :=
  Ascii.eqb c COMMA || Ascii.eqb c DQUOTE || Ascii.eqb c CR || Ascii.eqb c LF.

Fixpoint has_special (s : string) : bool :=
  match s with
  | EmptyString => false
  | String c s' => special c || has_special s'
  end.

(** [doublequote]: every quote character inside a field is written twice. *)
Fixpoint double_quotes (s : string) : string :=
  match s with
  | EmptyString => EmptyString
  | String c s' =>
      if Ascii.eqb c DQUOTE then String DQUOTE (String DQUOTE (double_quotes s'))
      else String c (double_quotes s')
  end.

Definition quoted (s : string) : string :=
  String DQUOTE (double_quotes s +:+ String DQUOTE EmptyString).

Definition write_field (s : string) : string :=
  if has_special s then quoted s else s.

Fixpoint join_fields (l : list string) : string :=
  match l with
  | [] => EmptyString
  | [s] => write_field s
  | s :: l' => write_field s +:+ String COMMA (join_fields l')
  end.

(** The text handed to the file by one [writerow]: the joined fields, where a
    record made of a single empty field is written as a pair of quotes, then
    the line terminator. *)
Definition record_body (l : list string) : string :=
  match l with
  | [s] => if String.eqb s EmptyString then quoted EmptyString else write_field s
  | _ => join_fields l
  end.

Definition record_text (l : list string) : string := record_body l +:+ CRLF.

Definition writerow (path : string) (fields : list scalar) : M unit :=
  file_write path (record_text (map field_text fields)).

(** ** The script *)

Definition PUBLISHER_ID : string := "pub-XXXXXXXXXXXXXXXX".

Definition default_csv_output_path : string := "/tmp/campaign_report.csv".

Definition fixed_request : request :=
  {| report_spec :=
       {| date_range :=
            {| start_date := {| year := 2023; month := 12; day := 1 |};
               end_date := {| year := 2023; month := 12; day := 31 |} |};
          dimensions := ["CAMPAIGN_NAME"; "COUNTRY"; "AD_NAME"];
          metrics := ["IMPRESSIONS"; "INSTALLS"; "CLICKS"] |} |}.

(** [service.accounts().campaignReport().generate(parent=..., body=...).execute()] *)
Definition execute_generate (svc : service) (parent : string) (body : request)
  : M response :=
  log_call (CampaignReportGenerate parent body) ;;
  lift (campaignReport_generate svc parent body).

Definition generate_campaign_report (svc : service) (publisher_id : string)
  : M report :=
  let date_range :=
    {| start_date := {| year := 2023; month := 12; day := 1 |};
       end_date := {| year := 2023; month := 12; day := 31 |} |} in
  let dimensions := ["CAMPAIGN_NAME"; "COUNTRY"; "AD_NAME"] in
  let metrics := ["IMPRESSIONS"; "INSTALLS"; "CLICKS"] in
  let report_spec :=
    {| date_range := date_range; dimensions := dimensions; metrics := metrics |} in
  let request := {| report_spec := report_spec |} in
  let* response := execute_generate svc ("accounts/" +:+ publisher_id) request in
  lift (getitem response "rows").

(** [list(report[0]['dimensionValues'].keys()) + list(report[0]['metricValues'].keys())] *)
Definition header_of (r0 : row) : result (list string) :=
  let? dv := getitem r0 "dimensionValues" in
  let? mv := getitem r0 "metricValues" in
  Ok (keys dv ++ keys mv).

(** [list(elem.values())[0]] *)
Definition first_value (elem : wrapper) : result scalar :=
  match values elem with
  | [] => Raise IndexError
  | v :: _ => Ok v
  end.

(** The list comprehension of the row loop; the iterable is built first. *)
Definition row_cells (r : row) : result (list scalar) :=
  let? dv := getitem r "dimensionValues" in
  let? mv := getitem r "metricValues" in
  comprehension first_value (values dv ++ values mv).

Definition save_to_csv (rep : report) (csv_output_path : string) : M unit :=
  match rep with
  | [] => ret tt
  | r0 :: _ =>
      open_w csv_output_path ;;
      let* header := lift (header_of r0) in
      writerow csv_output_path (map PStr header) ;;
      for_each rep (fun r =>
        let* cells := lift (row_cells r) in
        writerow csv_output_path cells)
  end.

(** [MediaFileUpload(path, ...)] opens the file when it is constructed. *)
Definition MediaFileUpload (filename mimetype : string) (resumable : bool)
  : M media :=
  fun w =>
    match fs w !! filename with
    | Some bytes =>
        (w, Ok {| media_filename := filename; media_mimetype := mimetype;
                  media_resumable := resumable; media_bytes := bytes |})
    | None => (w, Raise (FileNotFoundError filename))
    end.

Definition call_authenticate (env : environment) (api_name : option string)
    (api_version : string) (api_scopes : list string) : M service :=
  log_call (Authenticate api_name api_version api_scopes) ;;
  lift (authenticate env api_name api_version api_scopes).

(** [drive_service.files().create(body=..., media_body=..., fields=...).execute()] *)
Definition execute_create (svc : service) (body : file_metadata_t)
    (media_body : media) (fields : string) : M (dict scalar) :=
  log_call (FilesCreate body media_body fields) ;;
  lift (files_create svc body media_body fields).

(** [file.get("id")] *)
Definition dict_get_default (d : dict scalar) (k : string) : scalar :=
  default PNone (dict_get d k).

Definition upload_csv_to_google_sheets (env : environment)
    (csv_output_path : string) : M scalar :=
  let* drive_service :=
    call_authenticate env (Some "drive") "v3"
      ["https://www.googleapis.com/auth/drive.file"] in
  let* now := time_time_str in
  let file_metadata :=
    {| name := "campaign report csv upload " +:+ now;
       mimeType := "application/vnd.google-apps.spreadsheet" |} in
  let* media := MediaFileUpload csv_output_path "text/csv" true in
  let* file := execute_create drive_service file_metadata media "id" in
  print ("File with ID: " +:+ String DQUOTE (py_str (dict_get_default file "id"))
         +:+ String DQUOTE " has been uploaded.") ;;
  ret (dict_get_default file "id").

Definition main (env : environment) : M unit :=
  let* admob_service :=
    call_authenticate env None "v1beta"
      ["https://www.googleapis.com/auth/admob.readonly";
       "https://www.googleapis.com/auth/drive.file"] in
  let* rep := generate_campaign_report admob_service PUBLISHER_ID in
  save_to_csv rep default_csv_output_path ;;
  upload_csv_to_google_sheets env default_csv_output_path ;;
  ret tt.

(** ** Reading the file back

    The script never reads the file; the definitions below are the readers
    the specification speaks of ("lines", "re-parsing the produced file as
    delimited text"). *)

Definition is_eol (c : ascii) : bool := Ascii.eqb c CR || Ascii.eqb c LF.

(** After a carriage return, a line feed belongs to the same line break. *)
Definition after_eol (c : ascii) (s : string) : string :=
  if Ascii.eqb c CR then
    match s with
    | String c' s' => if Ascii.eqb c' LF then s' else s
    | EmptyString => s
    end
  else s.

Fixpoint has_eol (s : string) : bool :=
  match s with
  | EmptyString => false
  | String c s' => is_eol c || has_eol s'
  end.

(** The lines of a text file as a reader in text mode sees them: a line ends
    at a carriage return, a line feed, or the pair of them. *)
Fixpoint lines_from (cur : string) (s : string) : list string :=
  match s with
  | EmptyString => if String.eqb cur EmptyString then [] else [cur]
  | String c s' =>
      if Ascii.eqb c LF then cur :: lines_from EmptyString s'
      else if Ascii.eqb c CR then
        cur :: match s' with
               | String c' s'' =>
                   if Ascii.eqb c' LF then lines_from EmptyString s'' else lines_from EmptyString s'
               | EmptyString => []
               end
      else lines_from (cur +:+ String c EmptyString) s'
  end.

Definition text_lines (s : string) : list string := lines_from EmptyString s.

(** A reader of comma separated text with double-quote quoting: the states of
    a field. [Start] is the beginning of a field (and of a record when no
    field has been collected yet). *)
Inductive rstate : Type := Start | InField | InQuoted | QuoteInQuoted.

(** How a collected field stands once its text has been read: [s] is the
    field the record will get when it is closed from this state. *)
Definition ends (st : rstate) (rec : list string) (fld s : string) : Prop :=
  match st with
  | InQuoted => False
  | Start => s = EmptyString /\ rec <> []
  | _ => fld = s
  end.

Definition close_record (st : rstate) (rec : list string) (fld : string)
  : list string :=
  match st, rec with
  | Start, [] => []
  | Start, _ => rec ++ [EmptyString]
  | _, _ => rec ++ [fld]
  end.

Fixpoint read (st : rstate) (rec : list string) (fld : string) (s : string)
  : list (list string) :=
  match s with
  | EmptyString =>
      match st, rec with
      | Start, [] => []
      | _, _ => [close_record st rec fld]
      end
  | String c s' =>
      match st with
      | InQuoted =>
          if Ascii.eqb c DQUOTE then read QuoteInQuoted rec fld s'
          else read InQuoted rec (fld +:+ String c EmptyString) s'
      | _ =>
          if Ascii.eqb c LF then close_record st rec fld :: read Start [] EmptyString s'
          else if Ascii.eqb c CR then
            close_record st rec fld ::
              match s' with
              | String c' s'' =>
                  if Ascii.eqb c' LF then read Start [] EmptyString s''
                  else read Start [] EmptyString s'
              | EmptyString => []
              end
          else if Ascii.eqb c COMMA then
            read Start (close_record InField rec
                          (match st with Start => EmptyString | _ => fld end)) EmptyString s'
          else if Ascii.eqb c DQUOTE then
            match st with
            | Start => read InQuoted rec EmptyString s'
            | QuoteInQuoted => read InQuoted rec (fld +:+ String c EmptyString) s'
            | _ => read InField rec (fld +:+ String c EmptyString) s'
            end
          else
            read InField rec
              (match st with Start => EmptyString | _ => fld end +:+ String c EmptyString) s'
      end
  end.

Definition csv_reader (s : string) : list (list string) := read Start [] EmptyString s.

(** Number of columns of one text line, as the reader counts them. *)
Definition column_count (line : string) : nat :=
  length (concat (csv_reader line)).

(** Concatenation of a list of texts. *)
Fixpoint cat (l : list string) : string :=
  match l with
  | [] => EmptyString
  | s :: l' => s +:+ cat l'
  end.

(** The text of a whole file: one [record_text] per record. *)
Definition file_text (records : list (list string)) : string :=
  cat (map record_text records).

(** What the row loop leaves in the file, and how it ends, when it starts
    with [acc] already written. *)
Fixpoint rows_outcome (rows : report) (acc : string) : string * result unit :=
  match rows with
  | [] => (acc, Ok tt)
  | r :: rows' =>
      match row_cells r with
      | Ok cells => rows_outcome rows' (acc +:+ record_text (map field_text cells))
      | Raise e => (acc, Raise e)
      end
  end.

(** ** Shapes of reports *)

Definition nonempty {A} (l : list A) : bool :=
  match l with [] => false | _ => true end.

(** A report row in the sense of the data model: both value mappings are
    there and every value wrapper holds at least one value. *)
Definition well_shaped (r : row) : bool :=
  match dict_get r "dimensionValues", dict_get r "metricValues" with
  | Some dv, Some mv => forallb nonempty (values dv ++ values mv)
  | _, _ => false
  end.

(** The two value mappings of a row have pairwise distinct keys. *)
Definition keys_wf (r : row) : bool :=
  match dict_get r "dimensionValues", dict_get r "metricValues" with
  | Some dv, Some mv => dict_wf dv && dict_wf mv
  | _, _ => false
  end.

Definition list_eqb (l1 l2 : list string) : bool :=
  bool_decide (l1 = l2).

Definition subset_b (l1 l2 : list string) : bool :=
  forallb (fun k => existsb (String.eqb k) l2) l1.

Definition same_set (l1 l2 : list string) : bool :=
  subset_b l1 l2 && subset_b l2 l1.

(** [r] has the key sets of [r0], in the same order. *)
Definition same_keys (r0 r : row) : bool :=
  match dict_get r0 "dimensionValues", dict_get r0 "metricValues",
        dict_get r "dimensionValues", dict_get r "metricValues" with
  | Some dv0, Some mv0, Some dv, Some mv =>
      list_eqb (keys dv) (keys dv0) && list_eqb (keys mv) (keys mv0)
  | _, _, _, _ => false
  end.

(** [r] has the key sets of [r0], in any order. *)
Definition same_key_sets (r0 r : row) : bool :=
  match dict_get r0 "dimensionValues", dict_get r0 "metricValues",
        dict_get r "dimensionValues", dict_get r "metricValues" with
  | Some dv0, Some mv0, Some dv, Some mv =>
      same_set (keys dv) (keys dv0) && same_set (keys mv) (keys mv0)
  | _, _, _, _ => false
  end.

(** The data line the specification describes: for each column name of the
    first row, in that order, the single value of the entry of that name. *)
Definition named_cells (names : list string) (d : valmap) : result (list scalar) :=
  comprehension (fun k => let? elem := getitem d k in first_value elem) names.

Definition keyed_cells (r0 r : row) : result (list scalar) :=
  let? dv0 := getitem r0 "dimensionValues" in
  let? mv0 := getitem r0 "metricValues" in
  let? dv := getitem r "dimensionValues" in
  let? mv := getitem r "metricValues" in
  let? a := named_cells (keys dv0) dv in
  let? b := named_cells (keys mv0) mv in
  Ok (a ++ b).

(** ** Sample data *)

Definition mk_row (dims mets : valmap) : row :=
  [("dimensionValues", dims); ("metricValues", mets)].

Definition example_row1 : row :=
  mk_row [("CAMPAIGN_NAME", [("value", PStr "Fall Promo")]);
          ("COUNTRY", [("value", PStr "US")]);
          ("AD_NAME", [("value", PStr "Ad1")])]
         [("IMPRESSIONS", [("integerValue", PInt 100)]);
          ("INSTALLS", [("integerValue", PInt 5)]);
          ("CLICKS", [("integerValue", PInt 20)])].

Definition example_row2 : row :=
  mk_row [("CAMPAIGN_NAME", [("value", PStr "Fall Promo")]);
          ("COUNTRY", [("value", PStr "CA")]);
          ("AD_NAME", [("value", PStr "Ad1")])]
         [("IMPRESSIONS", [("integerValue", PInt 50)]);
          ("INSTALLS", [("integerValue", PInt 2)]);
          ("CLICKS", [("integerValue", PInt 9)])].

Definition example_report : report := [example_row1; example_row2].

Definition example_lines : list string :=
  ["CAMPAIGN_NAME,COUNTRY,AD_NAME,IMPRESSIONS,INSTALLS,CLICKS";
   "Fall Promo,US,Ad1,100,5,20";
   "Fall Promo,CA,Ad1,50,2,9"].

Definition example_file : string :=
  cat (map (fun l => l +:+ CRLF) example_lines).

Definition empty_world : world :=
  {| fs := ∅; calls := []; stdout := []; clock := "1700000000.0" |}.


(** Rows of the report before the first one that is not well shaped. *)
Fixpoint shaped_prefix (rows : report) : report :=
  match rows with
  | [] => []
  | r :: rows' => if well_shaped r then r :: shaped_prefix rows' else []
  end.

(** [KeyError] or [IndexError]. *)
Definition key_or_index (e : exn) : bool :=
  match e with
  | KeyError _ | IndexError => true
  | _ => false
  end.

(** The world after a run of the fetcher: one more call in the log. *)
Definition logged (c : api_call) (w : world) : world :=
  {| fs := fs w; calls := calls w ++ [c]; stdout := stdout w; clock := clock w |}.

(** The rows a response contains: those of its ['rows'] entry, none when
    there is no such entry. *)
Definition rows_in (resp : response) : report :=
  default [] (dict_get resp "rows").

(** A service whose report generation always answers with [resp]. *)
Definition service_answering (resp : response) : service :=
  {| campaignReport_generate := fun _ _ => Ok resp;
     files_create := fun _ _ _ => Ok [("id", PStr "1AbC")] |}.

Definition drive_scopes : list string :=
  ["https://www.googleapis.com/auth/drive.file"].

Definition admob_scopes : list string :=
  ["https://www.googleapis.com/auth/admob.readonly";
   "https://www.googleapis.com/auth/drive.file"].

(** The body and the media of the creation request of the uploader. *)
Definition upload_metadata (now : string) : file_metadata_t :=
  {| name := "campaign report csv upload " +:+ now;
     mimeType := "application/vnd.google-apps.spreadsheet" |}.

Definition upload_media (path bytes : string) : media :=
  {| media_filename := path; media_mimetype := "text/csv";
     media_resumable := true; media_bytes := bytes |}.

(** The line the uploader prints. *)
Definition upload_message (id : scalar) : string :=
  "File with ID: " +:+ String DQUOTE (py_str id)
  +:+ String DQUOTE " has been uploaded.".

Definition printed (line : string) (w : world) : world :=
  {| fs := fs w; calls := calls w; stdout := stdout w ++ [line]; clock := clock w |}.

(** An environment whose authentication always succeeds, with a service that
    reports no rows and names every created document [1AbC]. *)
Definition sample_env : environment :=
  {| authenticate := fun _ _ _ => Ok (service_answering [("rows", [])]) |}.

Definition no_eol (s : string) : bool := negb (has_eol s).

(** No column name and no written value of the row holds a line break. *)
Definition no_line_breaks (r : row) : bool :=
  match dict_get r "dimensionValues", dict_get r "metricValues" with
  | Some dv, Some mv =>
      forallb no_eol (keys dv ++ keys mv) &&
      forallb (fun elem : wrapper =>
                 match values elem with
                 | v :: _ => no_eol (field_text v)
                 | [] => true
                 end) (values dv ++ values mv)
  | _, _ => true
  end.

(** A one-row report whose ad name runs over two lines. *)
Definition multiline_report : report :=
  [mk_row [("AD_NAME", [("value", PStr ("Ad" +:+ String LF "1"))])]
          [("CLICKS", [("integerValue", PInt 20)])]].

(** Two one-row reports that differ only in the type of their value. *)
Definition int_report : report :=
  [mk_row [] [("CLICKS", [("integerValue", PInt 20)])]].

Definition str_report : report :=
  [mk_row [] [("CLICKS", [("integerValue", PStr "20")])]].

(** A row that lacks AD_NAME and lists its other keys in another order than
    [example_row1]. *)
Definition shuffled_row : row :=
  mk_row [("COUNTRY", [("value", PStr "CA")]);
          ("CAMPAIGN_NAME", [("value", PStr "Fall Promo")])]
         [("CLICKS", [("integerValue", PInt 9)]);
          ("IMPRESSIONS", [("integerValue", PInt 50)]);
          ("INSTALLS", [("integerValue", PInt 2)])].

(** A row whose COUNTRY wrapper is empty, and a row without metrics. *)
Definition hollow_row : row :=
  mk_row [("CAMPAIGN_NAME", [("value", PStr "Fall Promo")]); ("COUNTRY", [])]
         [("CLICKS", [("integerValue", PInt 9)])].

Definition half_row : row :=
  [("dimensionValues", [("COUNTRY", [("value", PStr "US")])])].

(** What is in the file when the exporter stops at the first row that is not
    well shaped: nothing if the header could not be built, else the header
    and the rows before that one, whose cells are [cells]. *)
Definition partial_file (rep : report) (cells : list (list scalar)) : string :=
  match rep with
  | r0 :: _ =>
      match header_of r0 with
      | Ok header => file_text (header :: map (map field_text) cells)
      | Raise _ => EmptyString
      end
  | [] => EmptyString
  end.

(** The exception the exporter gets from a row that is not well shaped: the
    two subscripts are evaluated before any wrapper is looked at. *)
Definition row_exn (r : row) : exn :=
  match dict_get r "dimensionValues" with
  | None => KeyError "dimensionValues"
  | Some _ =>
      match dict_get r "metricValues" with
      | None => KeyError "metricValues"
      | Some _ => IndexError
      end
  end.

(** A row stripped of everything but the first entry of each value wrapper. *)
Definition trim_valmap (d : valmap) : valmap :=
  map (fun kv : string * wrapper => (kv.1, take 1 kv.2)) d.

Definition trim_row (r : row) : row :=
  map (fun kv : string * valmap => (kv.1, trim_valmap kv.2)) r.

(** Fields put side by side with commas and nothing else. *)
Fixpoint comma_join (l : list string) : string :=
  match l with
  | [] => EmptyString
  | [s] => s
  | s :: l' => s +:+ String COMMA (comma_join l')
  end.

(** A text that [QUOTE_MINIMAL] leaves alone. *)
Definition plain (s : string) : bool := negb (has_special s).

(** A record other than the one made of a single empty field. *)
Definition not_lone_empty (l : list string) : bool :=
  match l with
  | [s] => negb (String.eqb s EmptyString)
  | _ => true
  end.

(** A row whose dimension wrapper also carries a display label. *)
Definition labelled_row : row :=
  mk_row [("COUNTRY", [("value", PStr "US"); ("displayLabel", PStr "United States")])]
         [("CLICKS", [("integerValue", PInt 20)])].

(** Environments for the failure paths. *)
Definition env_answering (resp : response) : environment :=
  {| authenticate := fun _ _ _ => Ok (service_answering resp) |}.

Definition failing_env : environment :=
  {| authenticate := fun _ _ _ => Raise (RemoteError "invalid_grant") |}.

Definition failing_service : service :=
  {| campaignReport_generate := fun _ _ => Raise (RemoteError "503");
     files_create := fun _ _ _ => Raise (RemoteError "503") |}.

Definition env_with (svc : service) : environment :=
  {| authenticate := fun _ _ _ => Ok svc |}.

(** A Drive answer without an [id] field. *)
Definition idless_service : service :=
  {| campaignReport_generate := fun _ _ => Ok [("rows", [])];
     files_create := fun _ _ _ => Ok [("kind", PStr "drive#file")] |}.

(** The same world at a later moment. *)
Definition set_clock (now : string) (w : world) : world :=
  {| fs := fs w; calls := calls w; stdout := stdout w; clock := now |}.

(** ** The exporter on a platform that may refuse

    [save_to_csv] above follows the convention of the header: the file can be
    opened and written, and every integer can be turned into text. The
    definitions below lift that convention. A [platform] says what
    [open(path, 'w')], a write to the open file (flushing and closing
    included) and [str(i)] raise, if anything: an [OSError] for a path that
    cannot be written, a [ValueError] for an integer over the interpreter's
    digit limit. *)

Record platform : Type :=
  { open_error : string -> option exn;
    write_error : string -> string -> option exn;
    str_error : Z -> option exn }.

(** The platform of the header's convention: nothing is refused. *)
Definition willing : platform :=
  {| open_error := fun _ => None;
     write_error := fun _ _ => None;
     str_error := fun _ => None |}.

Definition open_in (pf : platform) (path : string) : M unit :=
  match open_error pf path with
  | Some e => raise e
  | None => open_w path
  end.

Definition file_write_in (pf : platform) (path text : string) : M unit :=
  match write_error pf path text with
  | Some e => raise e
  | None => file_write path text
  end.

(** Text of one field, where [str] of an integer may raise. *)
Definition field_text_in (pf : platform) (v : scalar) : result string :=
  match v with
  | PInt z =>
      match str_error pf z with
      | Some e => Raise e
      | None => Ok (field_text v)
      end
  | _ => Ok (field_text v)
  end.

(** The writer turns the fields into text one after the other and hands the
    record to the file only when all of them went through. *)
Definition writerow_in (pf : platform) (path : string) (fields : list scalar)
  : M unit :=
  let* texts := lift (comprehension (field_text_in pf) fields) in
  file_write_in pf path (record_text texts).

Definition save_to_csv_in (pf : platform) (rep : report) (csv_output_path : string)
  : M unit :=
  match rep with
  | [] => ret tt
  | r0 :: _ =>
      open_in pf csv_output_path ;;
      let* header := lift (header_of r0) in
      writerow_in pf csv_output_path (map PStr header) ;;
      for_each rep (fun r =>
        let* cells := lift (row_cells r) in
        writerow_in pf csv_output_path cells)
  end.

Definition main_in (pf : platform) (env : environment) : M unit :=
  let* admob_service :=
    call_authenticate env None "v1beta"
      ["https://www.googleapis.com/auth/admob.readonly";
       "https://www.googleapis.com/auth/drive.file"] in
  let* rep := generate_campaign_report admob_service PUBLISHER_ID in
  save_to_csv_in pf rep default_csv_output_path ;;
  upload_csv_to_google_sheets env default_csv_output_path ;;
  ret tt.

(** [str] of the value goes through on the platform. *)
Definition renders (pf : platform) (v : scalar) : bool :=
  match v with
  | PInt z => match str_error pf z with Some _ => false | None => true end
  | _ => true
  end.

(** ** What a row holds, and what a text stands for

    Stated from the data model, not from the exporter: the values of a row
    are, entry by entry through its dimensions and then its metrics, the
    first value each entry's wrapper holds. *)
Definition original_values (r : row) : list scalar :=
  match dict_get r "dimensionValues", dict_get r "metricValues" with
  | Some dv, Some mv =>
      flat_map (fun entry : string * wrapper => take 1 (map snd entry.2)) (dv ++ mv)
  | _, _ => []
  end.

(** A text stands for a value: a string for itself, the empty text for
    [None], [True] and [False] for the booleans, and for an integer any text
    that reads as that integer in decimal notation. *)
Definition denotes (text : string) (v : scalar) : Prop :=
  match v with
  | PNone => text = EmptyString
  | PBool b => text = if b then "True" else "False"
  | PInt z => option_map Z.of_int (NilZero.int_of_string text) = Some z
  | PStr s => text = s
  end.

(** CPython with its default limit of 4300 digits on [str] of an integer,
    on a system that refuses to open the paths [refused] names. *)
Definition cpython (refused : string -> option exn) : platform :=
  {| open_error := refused;
     write_error := fun _ _ => None;
     str_error := fun z =>
       if (Z.abs z <? 10 ^ 4300)%Z then None
       else Some (ValueError "Exceeds the limit (4300 digits) for integer string conversion") |}.

(** A system on which the directory [/nonexistent] does not exist. *)
Definition no_such_dir (path : string) : option exn :=
  if String.prefix "/nonexistent/" path then Some (FileNotFoundError path) else None.

(** * Properties *)

(** ** Texts *)

Lemma append_cons (x : ascii) (a b : string) :
  String x a +:+ b = String x (a +:+ b).
Proof. reflexivity. Qed.

Lemma append_empty_l (a : string) : EmptyString +:+ a = a.
Proof. reflexivity. Qed.

Lemma append_assoc (a b c : string) : (a +:+ b) +:+ c = a +:+ (b +:+ c).
Proof.
  induction a as [|x a IH]; [reflexivity |].
  rewrite !append_cons. now rewrite IH.
Qed.

Lemma append_empty_r (a : string) : a +:+ EmptyString = a.
Proof.
  induction a as [|x a IH]; [reflexivity |].
  rewrite append_cons. now rewrite IH.
Qed.

Lemma cat_app (l1 l2 : list string) : cat (l1 ++ l2) = cat l1 +:+ cat l2.
Proof.
  induction l1 as [|s l1 IH]; simpl; [reflexivity |].
  now rewrite IH, append_assoc.
Qed.

(** ** Running the exporter *)

Lemma set_fs_twice (f g : gmap string string) (w : world) :
  set_fs g (set_fs f w) = set_fs g w.
Proof. reflexivity. Qed.

Lemma file_write_at (path text acc : string) (f : gmap string string) (w : world) :
  file_write path text (set_fs (<[path := acc]> f) w)
  = (set_fs (<[path := acc +:+ text]> f) w, Ok tt).
Proof.
  unfold file_write. cbn [fs set_fs].
  rewrite lookup_insert_eq, insert_insert_eq. reflexivity.
Qed.

Lemma for_each_rows (path : string) (rows : report) :
  forall (acc : string) (f : gmap string string) (w : world),
    for_each rows
      (fun r => let* cells := lift (row_cells r) in writerow path cells)
      (set_fs (<[path := acc]> f) w)
    = (set_fs (<[path := (rows_outcome rows acc).1]> f) w,
       (rows_outcome rows acc).2).
Proof.
  induction rows as [|r rows IH]; intros acc f w; [reflexivity |].
  cbn [for_each rows_outcome]. unfold bind at 1. unfold bind at 1, lift.
  destruct (row_cells r) as [cells | e]; [| reflexivity].
  unfold writerow. rewrite file_write_at. apply IH.
Qed.

Lemma map_field_text_PStr (l : list string) : map field_text (map PStr l) = l.
Proof. induction l as [|s l IH]; simpl; [reflexivity | now rewrite IH]. Qed.

Lemma save_to_csv_run (r0 : row) (rest : report) (path : string) (w : world) :
  save_to_csv (r0 :: rest) path w =
    match header_of r0 with
    | Ok header =>
        (set_fs (<[path := (rows_outcome (r0 :: rest) (record_text header)).1]> (fs w)) w,
         (rows_outcome (r0 :: rest) (record_text header)).2)
    | Raise e => (set_fs (<[path := EmptyString]> (fs w)) w, Raise e)
    end.
Proof.
  unfold save_to_csv. unfold bind at 1. unfold open_w.
  unfold bind at 1. unfold lift at 1.
  destruct (header_of r0) as [header | e]; [| reflexivity].
  unfold bind at 1. unfold writerow at 1.
  rewrite file_write_at, map_field_text_PStr, append_empty_l.
  apply for_each_rows.
Qed.

Lemma rows_outcome_ok (rows : report) :
  forall (acc : string) (cells : list (list scalar)),
    comprehension row_cells rows = Ok cells ->
    rows_outcome rows acc
    = (acc +:+ file_text (map (map field_text) cells), Ok tt).
Proof.
  induction rows as [|r rows IH]; intros acc cells H.
  - injection H as <-. cbn. now rewrite append_empty_r.
  - cbn in H |- *. destruct (row_cells r) as [c | e]; [| discriminate].
    cbn in H. destruct (comprehension row_cells rows) as [cs | e]; [| discriminate].
    injection H as <-. rewrite (IH _ cs eq_refl).
    unfold file_text. cbn. now rewrite append_assoc.
Qed.

Lemma comprehension_first_value (l : list wrapper) :
  forallb nonempty l = true ->
  exists cells, comprehension first_value l = Ok cells /\ length cells = length l.
Proof.
  induction l as [|e l IH]; intros H.
  - exists []. split; reflexivity.
  - cbn in H. apply andb_true_iff in H as [He Hl].
    destruct (IH Hl) as (cells & Hc & Hlen).
    destruct e as [|[k v] e]; [discriminate |].
    exists (v :: cells). cbn. rewrite Hc. cbn. split; [reflexivity | now rewrite Hlen].
Qed.

Lemma well_shaped_inv (r : row) :
  well_shaped r = true ->
  exists dv mv cells,
    dict_get r "dimensionValues" = Some dv /\
    dict_get r "metricValues" = Some mv /\
    header_of r = Ok (keys dv ++ keys mv) /\
    row_cells r = Ok cells /\
    comprehension first_value (values dv ++ values mv) = Ok cells /\
    length cells = length (keys dv ++ keys mv).
Proof.
  unfold well_shaped, header_of, row_cells, getitem. intros H.
  destruct (dict_get r "dimensionValues") as [dv|]; [| discriminate].
  destruct (dict_get r "metricValues") as [mv|]; [| discriminate].
  destruct (comprehension_first_value _ H) as (cells & Hc & Hlen).
  exists dv, mv, cells. cbn. rewrite Hc. repeat split.
  rewrite Hlen. unfold keys, values. now rewrite !length_app, !length_map.
Qed.

Lemma shaped_cells (rows : report) :
  forallb well_shaped rows = true ->
  exists cells, comprehension row_cells rows = Ok cells /\ length cells = length rows.
Proof.
  induction rows as [|r rows IH]; intros H.
  - exists []. split; reflexivity.
  - cbn in H. apply andb_true_iff in H as [Hr Hrows].
    destruct (IH Hrows) as (cells & Hc & Hlen).
    destruct (well_shaped_inv r Hr) as (dv & mv & c & _ & _ & _ & Hrc & _).
    exists (c :: cells). cbn. rewrite Hrc. cbn. rewrite Hc. cbn.
    split; [reflexivity | now rewrite Hlen].
Qed.

(** A well shaped report is written whole: the header of the first row, then
    every row's own values in the row's own order. *)
Lemma save_to_csv_shaped (r0 : row) (rest : report) (path : string) (w : world) :
  forallb well_shaped (r0 :: rest) = true ->
  exists header cells,
    header_of r0 = Ok header /\
    comprehension row_cells (r0 :: rest) = Ok cells /\
    save_to_csv (r0 :: rest) path w
    = (set_fs (<[path := file_text (header :: map (map field_text) cells)]> (fs w)) w,
       Ok tt).
Proof.
  intros H. destruct (shaped_cells _ H) as (cells & Hc & _).
  cbn in H. apply andb_true_iff in H as [H0 _].
  destruct (well_shaped_inv r0 H0) as (dv & mv & c & _ & _ & Hh & _).
  exists (keys dv ++ keys mv), cells. split; [exact Hh |]. split; [exact Hc |].
  rewrite save_to_csv_run, Hh, (rows_outcome_ok _ _ _ Hc). reflexivity.
Qed.

(** ** The fetcher *)

Lemma generate_campaign_report_run (svc : service) (publisher_id : string) (w : world) :
  generate_campaign_report svc publisher_id w
  = (logged (CampaignReportGenerate ("accounts/" +:+ publisher_id) fixed_request) w,
     let? response :=
       campaignReport_generate svc ("accounts/" +:+ publisher_id) fixed_request in
     getitem response "rows").
Proof.
  unfold generate_campaign_report, execute_generate, bind, log_call, lift, logged.
  fold fixed_request.
  destruct (campaignReport_generate svc _ fixed_request); reflexivity.
Qed.

(** C7. Whatever the service answers, even when it fails, the fetcher issues
    exactly one call: the report generation scoped to ["accounts/<publisher>"]
    whose body carries the date range 2023-12-01 to 2023-12-31, the dimensions
    CAMPAIGN_NAME, COUNTRY, AD_NAME and the metrics IMPRESSIONS, INSTALLS,
    CLICKS, in that order. It touches no file. *)
Theorem fetcher_request_is_fixed (svc : service) (publisher_id : string) (w : world) :
  calls (generate_campaign_report svc publisher_id w).1
  = calls w ++
    [CampaignReportGenerate ("accounts/" +:+ publisher_id)
       {| report_spec :=
            {| date_range :=
                 {| start_date := {| year := 2023; month := 12; day := 1 |};
                    end_date := {| year := 2023; month := 12; day := 31 |} |};
               dimensions := ["CAMPAIGN_NAME"; "COUNTRY"; "AD_NAME"];
               metrics := ["IMPRESSIONS"; "INSTALLS"; "CLICKS"] |} |}]
  /\ fs (generate_campaign_report svc publisher_id w).1 = fs w.
Proof. rewrite generate_campaign_report_run. split; reflexivity. Qed.

(** C4, as amended. When the response carries a ['rows'] entry, the fetcher
    returns the rows of that entry, in order and without raising; when the
    entry holds zero rows this is the empty sequence. *)
Theorem fetcher_returns_rows_entry
    (svc : service) (publisher_id : string) (w : world)
    (resp : response) (rows : report) :
  campaignReport_generate svc ("accounts/" +:+ publisher_id) fixed_request = Ok resp ->
  dict_get resp "rows" = Some rows ->
  (generate_campaign_report svc publisher_id w).2 = Ok rows.
Proof.
  intros Hsvc Hrows. rewrite generate_campaign_report_run. cbn [snd].
  rewrite Hsvc. unfold rbind, getitem. now rewrite Hrows.
Qed.

Lemma fetcher_returns_rows_entry_witness :
  (generate_campaign_report (service_answering [("rows", [])]) PUBLISHER_ID empty_world).2
  = Ok [].
Proof.
  apply (fetcher_returns_rows_entry (service_answering [("rows", [])])
           PUBLISHER_ID empty_world [("rows", [])] []); reflexivity.
Defined.

(** C4, as stated, fails: a response without any ['rows'] entry contains
    zero rows, and the fetcher raises [KeyError] on it. *)
Lemma fetcher_zero_rows_can_raise :
  ~ (forall (svc : service) (publisher_id : string) (w : world) (resp : response),
       campaignReport_generate svc ("accounts/" +:+ publisher_id) fixed_request = Ok resp ->
       rows_in resp = [] ->
       (generate_campaign_report svc publisher_id w).2 = Ok []).
Proof.
  intros H.
  specialize (H (service_answering []) PUBLISHER_ID empty_world [] eq_refl eq_refl).
  discriminate H.
Qed.

(** On that response the fetcher ends in [KeyError 'rows']. *)
Lemma fetcher_missing_rows_entry :
  (generate_campaign_report (service_answering []) PUBLISHER_ID empty_world).2
  = Raise (KeyError "rows").
Proof. reflexivity. Qed.

(** ** The exporter on an empty report *)

(** C3. On the empty report the exporter returns without error and leaves
    the world as it was: no file is created, truncated or written. *)
Theorem save_to_csv_empty (path : string) (w : world) :
  save_to_csv [] path w = (w, Ok tt).
Proof. reflexivity. Qed.

(** ** The uploader *)

Lemma upload_run (env : environment) (path : string) (w : world) :
  upload_csv_to_google_sheets env path w =
    let w1 := logged (Authenticate (Some "drive") "v3" drive_scopes) w in
    match authenticate env (Some "drive") "v3" drive_scopes with
    | Raise e => (w1, Raise e)
    | Ok svc =>
        match fs w !! path with
        | None => (w1, Raise (FileNotFoundError path))
        | Some bytes =>
            let meta := upload_metadata (clock w) in
            let med := upload_media path bytes in
            let w2 := logged (FilesCreate meta med "id") w1 in
            match files_create svc meta med "id" with
            | Raise e => (w2, Raise e)
            | Ok file =>
                (printed (upload_message (dict_get_default file "id")) w2,
                 Ok (dict_get_default file "id"))
            end
        end
    end.
Proof.
  unfold upload_csv_to_google_sheets, call_authenticate, execute_create,
    MediaFileUpload, time_time_str, bind, log_call, lift, logged, print, ret.
  fold drive_scopes. cbn [fs calls stdout clock].
  destruct (authenticate env (Some "drive") "v3" drive_scopes) as [svc | e];
    [| reflexivity].
  destruct (fs w !! path) as [bytes |]; [| reflexivity].
  fold (upload_metadata (clock w)). fold (upload_media path bytes).
  destruct (files_create svc _ _ "id") as [file | e]; reflexivity.
Qed.

(** Any call of the uploader, failing or not, asks for at most one document. *)
Lemma upload_at_most_one_create (env : environment) (path : string) (w : world) :
  exists tail,
    calls (upload_csv_to_google_sheets env path w).1
    = calls w ++ Authenticate (Some "drive") "v3" drive_scopes :: tail /\
    (tail = [] \/
     exists bytes,
       tail = [FilesCreate (upload_metadata (clock w)) (upload_media path bytes) "id"]).
Proof.
  rewrite upload_run. cbv zeta.
  destruct (authenticate env _ _ _) as [svc | e]; [| exists []; split; [reflexivity | now left]].
  destruct (fs w !! path) as [bytes |]; [| exists []; split; [reflexivity | now left]].
  exists [FilesCreate (upload_metadata (clock w)) (upload_media path bytes) "id"].
  split; [| right; now exists bytes].
  destruct (files_create svc _ _ _); cbn; now rewrite <- app_assoc.
Qed.

(** C8. A call of the uploader that gets its Drive handle and finds the file
    issues, after authenticating, exactly one creation request; its metadata
    are the name ["campaign report csv upload " + str(time.time())] and the
    Google Sheets MIME type, its media is the file at the given path, sent as
    [text/csv] in resumable mode, and only the [id] field is asked for. When
    the service answers, the uploader returns [file.get("id")], the
    identifier of the created document, and leaves the file system alone. *)
Theorem upload_creates_one_spreadsheet
    (env : environment) (path : string) (w : world)
    (svc : service) (bytes : string) (file : dict scalar) :
  let meta :=
    {| name := "campaign report csv upload " +:+ clock w;
       mimeType := "application/vnd.google-apps.spreadsheet" |} in
  let med :=
    {| media_filename := path; media_mimetype := "text/csv";
       media_resumable := true; media_bytes := bytes |} in
  authenticate env (Some "drive") "v3"
    ["https://www.googleapis.com/auth/drive.file"] = Ok svc ->
  fs w !! path = Some bytes ->
  files_create svc meta med "id" = Ok file ->
  calls (upload_csv_to_google_sheets env path w).1
  = calls w ++
    [Authenticate (Some "drive") "v3" ["https://www.googleapis.com/auth/drive.file"];
     FilesCreate meta med "id"] /\
  (upload_csv_to_google_sheets env path w).2 = Ok (dict_get_default file "id") /\
  (forall doc_id, dict_get file "id" = Some doc_id ->
     (upload_csv_to_google_sheets env path w).2 = Ok doc_id) /\
  fs (upload_csv_to_google_sheets env path w).1 = fs w.
Proof.
  intros meta med Hauth Hfile Hcreate. rewrite upload_run. cbv zeta.
  unfold drive_scopes. rewrite Hauth, Hfile.
  change (upload_metadata (clock w)) with meta.
  change (upload_media path bytes) with med.
  rewrite Hcreate. cbn. rewrite <- app_assoc.
  repeat split. intros doc_id Hid. unfold dict_get_default. now rewrite Hid.
Qed.

Lemma upload_creates_one_spreadsheet_witness :
  (upload_csv_to_google_sheets sample_env "/tmp/campaign_report.csv"
     (set_fs {["/tmp/campaign_report.csv" := example_file]} empty_world)).2
  = Ok (PStr "1AbC").
Proof.
  refine (proj1 (proj2 (upload_creates_one_spreadsheet sample_env
    "/tmp/campaign_report.csv"
    (set_fs {["/tmp/campaign_report.csv" := example_file]} empty_world)
    (service_answering [("rows", [])]) example_file [("id", PStr "1AbC")] _ _ _)));
    reflexivity.
Defined.

(** ** The main run *)

Lemma main_run (env : environment) (w : world) :
  main env w =
    let w1 := logged (Authenticate None "v1beta" admob_scopes) w in
    match authenticate env None "v1beta" admob_scopes with
    | Raise e => (w1, Raise e)
    | Ok svc =>
        match generate_campaign_report svc PUBLISHER_ID w1 with
        | (w2, Raise e) => (w2, Raise e)
        | (w2, Ok rep) =>
            match save_to_csv rep default_csv_output_path w2 with
            | (w3, Raise e) => (w3, Raise e)
            | (w3, Ok _) =>
                ((upload_csv_to_google_sheets env default_csv_output_path w3).1,
                 let? _ := (upload_csv_to_google_sheets env default_csv_output_path w3).2 in
                 Ok tt)
            end
        end
    end.
Proof.
  unfold main, call_authenticate. unfold bind at 1. unfold bind at 1.
  unfold log_call, lift. fold (logged (Authenticate None "v1beta" admob_scopes) w).
  fold admob_scopes.
  destruct (authenticate env None "v1beta" admob_scopes) as [svc | e]; [| reflexivity].
  cbv zeta. unfold bind at 1.
  destruct (generate_campaign_report svc PUBLISHER_ID _) as [w2 [rep | e]];
    [| reflexivity].
  unfold bind at 1.
  destruct (save_to_csv rep default_csv_output_path w2) as [w3 [[] | e]];
    [| reflexivity].
  unfold bind at 1.
  destruct (upload_csv_to_google_sheets env default_csv_output_path w3) as [w4 [v | e]];
    reflexivity.
Qed.

(** C5. When the fetched report is empty, the run goes on: the export step
    changes no file, and the run is the upload step on the default output
    path, started in a world whose files are those of the start. In
    particular the Drive authentication that opens the upload step is among
    the calls made. *)
Theorem main_empty_report_still_uploads
    (env : environment) (w : world) (svc : service) (resp : response) :
  authenticate env None "v1beta"
    ["https://www.googleapis.com/auth/admob.readonly";
     "https://www.googleapis.com/auth/drive.file"] = Ok svc ->
  campaignReport_generate svc ("accounts/" +:+ PUBLISHER_ID) fixed_request = Ok resp ->
  dict_get resp "rows" = Some [] ->
  exists w1,
    fs w1 = fs w /\
    (save_to_csv [] default_csv_output_path w1).1 = w1 /\
    (main env w).1
    = (upload_csv_to_google_sheets env "/tmp/campaign_report.csv" w1).1 /\
    (main env w).2
    = (let? _ := (upload_csv_to_google_sheets env "/tmp/campaign_report.csv" w1).2 in
       Ok tt) /\
    In (Authenticate (Some "drive") "v3" ["https://www.googleapis.com/auth/drive.file"])
       (calls (main env w).1).
Proof.
  intros Hauth Hsvc Hrows.
  pose (w1 := logged (CampaignReportGenerate ("accounts/" +:+ PUBLISHER_ID) fixed_request)
                (logged (Authenticate None "v1beta" admob_scopes) w)).
  assert (Hmain : main env w
                  = ((upload_csv_to_google_sheets env default_csv_output_path w1).1,
                     let? _ := (upload_csv_to_google_sheets env default_csv_output_path w1).2 in
                     Ok tt)).
  { fold admob_scopes in Hauth. rewrite main_run. cbv zeta. rewrite Hauth.
    rewrite generate_campaign_report_run, Hsvc.
    unfold rbind at 1, getitem. rewrite Hrows.
    reflexivity. }
  exists w1. rewrite Hmain. repeat split.
  cbn [fst].
  destruct (upload_at_most_one_create env default_csv_output_path w1)
    as (tail & -> & _).
  apply in_or_app. right. now left.
Qed.

Lemma main_empty_report_still_uploads_witness :
  exists w1,
    fs w1 = fs empty_world /\
    (save_to_csv [] default_csv_output_path w1).1 = w1 /\
    (main sample_env empty_world).1
    = (upload_csv_to_google_sheets sample_env "/tmp/campaign_report.csv" w1).1 /\
    (main sample_env empty_world).2
    = (let? _ := (upload_csv_to_google_sheets sample_env "/tmp/campaign_report.csv" w1).2 in
       Ok tt) /\
    In (Authenticate (Some "drive") "v3" ["https://www.googleapis.com/auth/drive.file"])
       (calls (main sample_env empty_world).1).
Proof.
  apply (main_empty_report_still_uploads sample_env empty_world
           (service_answering [("rows", [])]) [("rows", [])]); reflexivity.
Defined.

(** With no file left by an earlier run, the upload step of such a run
    stops at [FileNotFoundError]. *)
Example main_empty_report_fails_in_upload :
  (main sample_env empty_world).2 = Raise (FileNotFoundError "/tmp/campaign_report.csv").
Proof. rewrite main_run. reflexivity. Qed.

(** ** The reader undoes the writer *)

Lemma special_false (c : ascii) :
  special c = false ->
  Ascii.eqb c COMMA = false /\ Ascii.eqb c DQUOTE = false /\
  Ascii.eqb c CR = false /\ Ascii.eqb c LF = false.
Proof.
  unfold special. intros H.
  apply orb_false_iff in H as [H H4]. apply orb_false_iff in H as [H H3].
  apply orb_false_iff in H as [H1 H2]. auto.
Qed.

Lemma read_plain (rec : list string) (tail : string) (s : string) :
  forall fld,
    has_special s = false ->
    read InField rec fld (s +:+ tail) = read InField rec (fld +:+ s) tail.
Proof.
  induction s as [|c s IH]; intros fld H.
  - now rewrite append_empty_l, append_empty_r.
  - cbn [has_special] in H. apply orb_false_iff in H as [Hc Hs].
    destruct (special_false c Hc) as (H1 & H2 & H3 & H4).
    rewrite append_cons. cbn [read]. rewrite H1, H2, H3, H4.
    rewrite (IH _ Hs), append_assoc, append_cons, append_empty_l. reflexivity.
Qed.

Lemma read_start_plain (rec : list string) (tail : string) (c : ascii) (s : string) :
  has_special (String c s) = false ->
  read Start rec EmptyString (String c s +:+ tail) = read InField rec (String c s) tail.
Proof.
  intros H. cbn [has_special] in H. apply orb_false_iff in H as [Hc Hs].
  destruct (special_false c Hc) as (H1 & H2 & H3 & H4).
  rewrite append_cons. cbn [read]. rewrite H1, H2, H3, H4.
  rewrite append_empty_l, (read_plain _ _ _ _ Hs), append_cons, append_empty_l.
  reflexivity.
Qed.

Lemma read_quoted_body (rec : list string) (tail : string) (s : string) :
  forall fld,
    read InQuoted rec fld (double_quotes s +:+ String DQUOTE tail)
    = read QuoteInQuoted rec (fld +:+ s) tail.
Proof.
  induction s as [|c s IH]; intros fld.
  - cbn [double_quotes]. rewrite append_empty_l, append_empty_r.
    cbn [read]. now rewrite Ascii.eqb_refl.
  - cbn [double_quotes]. destruct (Ascii.eqb c DQUOTE) eqn:E.
    + apply Ascii.eqb_eq in E. subst c.
      rewrite !append_cons. cbn [read]. rewrite Ascii.eqb_refl.
      change (Ascii.eqb DQUOTE LF) with false.
      change (Ascii.eqb DQUOTE CR) with false.
      change (Ascii.eqb DQUOTE COMMA) with false.
      cbv iota.
      rewrite IH, append_assoc, append_cons, append_empty_l. reflexivity.
    + rewrite append_cons. cbn [read]. rewrite E.
      rewrite IH, append_assoc, append_cons, append_empty_l. reflexivity.
Qed.

Lemma read_quoted (rec : list string) (tail : string) (s : string) :
  read Start rec EmptyString (quoted s +:+ tail) = read QuoteInQuoted rec s tail.
Proof.
  unfold quoted. rewrite append_cons, append_assoc, append_cons, append_empty_l.
  cbn [read].
  change (Ascii.eqb DQUOTE LF) with false.
  change (Ascii.eqb DQUOTE CR) with false.
  change (Ascii.eqb DQUOTE COMMA) with false.
  rewrite Ascii.eqb_refl. cbv iota.
  now rewrite read_quoted_body, append_empty_l.
Qed.

(** Reading the text of one written field leaves the reader in a state from
    which closing the field yields the field. *)
Lemma read_written_field (rec : list string) (s W : string) :
  W = quoted s \/ (W = write_field s /\ (s <> EmptyString \/ rec <> [])) ->
  exists st fld,
    ends st rec fld s /\
    forall tail, read Start rec EmptyString (W +:+ tail) = read st rec fld tail.
Proof.
  intros [-> | [-> Hne]].
  - exists QuoteInQuoted, s. split; [reflexivity |]. intros tail. apply read_quoted.
  - unfold write_field. destruct (has_special s) eqn:Hs.
    + exists QuoteInQuoted, s. split; [reflexivity |]. intros tail. apply read_quoted.
    + destruct s as [|c s].
      * exists Start, EmptyString. split; [| reflexivity].
        split; [reflexivity |]. destruct Hne as [Hne | Hne]; [now destruct Hne | exact Hne].
      * exists InField, (String c s). split; [reflexivity |].
        intros tail. now apply read_start_plain.
Qed.

Lemma ends_comma (st : rstate) (rec : list string) (fld s tail : string) :
  ends st rec fld s ->
  read st rec fld (String COMMA tail) = read Start (rec ++ [s]) EmptyString tail.
Proof.
  destruct st; cbn [ends]; intros H; try contradiction; cbn [read];
    change (Ascii.eqb COMMA LF) with false;
    change (Ascii.eqb COMMA CR) with false;
    rewrite Ascii.eqb_refl; cbv iota; cbn [close_record].
  - destruct H as [-> _]. reflexivity.
  - now subst.
  - now subst.
Qed.

Lemma ends_close (st : rstate) (rec : list string) (fld s : string) :
  ends st rec fld s -> close_record st rec fld = rec ++ [s].
Proof.
  destruct st; cbn [ends close_record]; intros H; try contradiction.
  - destruct H as [-> Hrec]. now destruct rec.
  - now subst.
  - now subst.
Qed.

Lemma ends_crlf (st : rstate) (rec : list string) (fld s tail : string) :
  ends st rec fld s ->
  read st rec fld (CRLF +:+ tail) = (rec ++ [s]) :: read Start [] EmptyString tail.
Proof.
  intros H. rewrite <- (ends_close _ _ _ _ H).
  destruct st; try contradiction; unfold CRLF;
    rewrite !append_cons, append_empty_l; cbn [read];
    change (Ascii.eqb CR LF) with false;
    rewrite !Ascii.eqb_refl; reflexivity.
Qed.

Lemma ends_eof (st : rstate) (rec : list string) (fld s : string) :
  ends st rec fld s -> read st rec fld EmptyString = [rec ++ [s]].
Proof.
  intros H. rewrite <- (ends_close _ _ _ _ H).
  destruct st; try contradiction; cbn [read]; try reflexivity.
  destruct H as [_ Hrec]. now destruct rec.
Qed.

Lemma read_field_comma (rec : list string) (s tail : string) :
  read Start rec EmptyString (write_field s +:+ String COMMA tail)
  = read Start (rec ++ [s]) EmptyString tail.
Proof.
  destruct (decide (s = EmptyString)) as [-> | Hs].
  - unfold write_field. cbn [has_special]. rewrite append_empty_l.
    apply ends_comma with (st := InField). reflexivity.
  - destruct (read_written_field rec s (write_field s)) as (st & fld & He & Hr);
      [right; split; [reflexivity | now left] |].
    rewrite Hr. now apply ends_comma.
Qed.

Lemma read_join (l : list string) :
  forall rec,
    l <> [] -> (rec <> [] \/ l <> [EmptyString]) ->
    exists st rec' fld s,
      ends st rec' fld s /\ rec' ++ [s] = rec ++ l /\
      forall tail, read Start rec EmptyString (join_fields l +:+ tail) = read st rec' fld tail.
Proof.
  induction l as [|s l IH]; intros rec Hl Hne; [contradiction |].
  destruct l as [|s2 l].
  - cbn [join_fields].
    destruct (read_written_field rec s (write_field s)) as (st & fld & He & Hr).
    { right. split; [reflexivity |].
      destruct Hne as [Hne | Hne]; [now right |].
      left. intros ->. now apply Hne. }
    exists st, rec, fld, s. auto.
  - destruct (IH (rec ++ [s])) as (st & rec' & fld & s' & He & Hrec & Hr).
    { discriminate. }
    { left. now destruct rec. }
    exists st, rec', fld, s'. split; [exact He |]. split.
    + now rewrite Hrec, <- app_assoc.
    + intros tail.
      change (join_fields (s :: s2 :: l))
        with (write_field s +:+ String COMMA (join_fields (s2 :: l))).
      rewrite append_assoc, append_cons, read_field_comma. apply Hr.
Qed.

Lemma read_record_body (l : list string) :
  l <> [] ->
  exists st rec' fld s,
    ends st rec' fld s /\ rec' ++ [s] = l /\
    forall tail, read Start [] EmptyString (record_body l +:+ tail) = read st rec' fld tail.
Proof.
  intros Hl. destruct l as [|s l]; [contradiction |]. destruct l as [|s2 l].
  - cbn [record_body]. destruct (String.eqb_spec s EmptyString) as [-> | Hs].
    + destruct (read_written_field [] EmptyString (quoted EmptyString)) as (st & fld & He & Hr);
        [now left |].
      exists st, [], fld, EmptyString. auto.
    + destruct (read_written_field [] s (write_field s)) as (st & fld & He & Hr);
        [right; split; [reflexivity | now left] |].
      exists st, [], fld, s. auto.
  - change (record_body (s :: s2 :: l)) with (join_fields (s :: s2 :: l)).
    destruct (read_join (s :: s2 :: l) []) as (st & rec' & fld & s' & He & Hrec & Hr).
    { discriminate. }
    { right. discriminate. }
    exists st, rec', fld, s'. auto.
Qed.

(** One written record, read back, is the record; the reader then goes on
    with what follows. *)
Lemma read_record (l : list string) (rest : string) :
  read Start [] EmptyString (record_text l +:+ rest) = l :: read Start [] EmptyString rest.
Proof.
  unfold record_text. rewrite append_assoc.
  destruct l as [|s l].
  - cbn [record_body]. rewrite append_empty_l.
    unfold CRLF. rewrite !append_cons, append_empty_l. cbn [read].
    change (Ascii.eqb CR LF) with false. now rewrite !Ascii.eqb_refl.
  - destruct (read_record_body (s :: l)) as (st & rec' & fld & s' & He & Hrec & Hr);
      [discriminate |].
    rewrite Hr, <- Hrec. now apply ends_crlf.
Qed.

Lemma csv_reader_file_text (records : list (list string)) :
  csv_reader (file_text records) = records.
Proof.
  unfold csv_reader, file_text.
  induction records as [|l records IH]; [reflexivity |].
  cbn [map cat]. now rewrite read_record, IH.
Qed.

Lemma csv_reader_record_body (l : list string) :
  csv_reader (record_body l) = match l with [] => [] | _ => [l] end.
Proof.
  destruct l as [|s l]; [reflexivity |].
  destruct (read_record_body (s :: l)) as (st & rec' & fld & s' & He & Hrec & Hr);
    [discriminate |].
  unfold csv_reader. rewrite <- (append_empty_r (record_body (s :: l))), Hr, <- Hrec.
  now apply ends_eof.
Qed.

Lemma column_count_record_body (l : list string) :
  column_count (record_body l) = length l.
Proof.
  unfold column_count. rewrite csv_reader_record_body.
  destruct l; [reflexivity |]. cbn [concat]. now rewrite app_nil_r.
Qed.

(** ** Text lines of a written file *)

Lemma has_eol_app (a b : string) : has_eol (a +:+ b) = has_eol a || has_eol b.
Proof.
  induction a as [|c a IH]; [reflexivity |].
  rewrite append_cons. cbn [has_eol]. now rewrite IH, orb_assoc.
Qed.

Lemma has_eol_double_quotes (s : string) : has_eol (double_quotes s) = has_eol s.
Proof.
  induction s as [|c s IH]; [reflexivity |].
  cbn [double_quotes]. destruct (Ascii.eqb c DQUOTE) eqn:E.
  - apply Ascii.eqb_eq in E. subst c. cbn [has_eol]. now rewrite IH.
  - cbn [has_eol]. now rewrite IH.
Qed.

Lemma has_eol_quoted (s : string) : has_eol (quoted s) = has_eol s.
Proof.
  unfold quoted. cbn [has_eol]. rewrite has_eol_app, has_eol_double_quotes.
  cbn [has_eol]. change (is_eol DQUOTE) with false. cbn [orb].
  now rewrite orb_false_r.
Qed.

Lemma has_eol_write_field (s : string) : has_eol (write_field s) = has_eol s.
Proof. unfold write_field. destruct (has_special s); [apply has_eol_quoted | reflexivity]. Qed.

Lemma has_eol_join_fields (l : list string) :
  forallb no_eol l = true -> has_eol (join_fields l) = false.
Proof.
  induction l as [|s l IH]; intros H; [reflexivity |].
  cbn [forallb] in H. apply andb_true_iff in H as [Hs Hl].
  apply negb_true_iff in Hs. destruct l as [|s2 l].
  - cbn [join_fields]. now rewrite has_eol_write_field.
  - change (join_fields (s :: s2 :: l))
      with (write_field s +:+ String COMMA (join_fields (s2 :: l))).
    rewrite has_eol_app, has_eol_write_field, Hs. cbn [has_eol orb].
    change (is_eol COMMA) with false. cbn [orb]. now apply IH.
Qed.

Lemma has_eol_record_body (l : list string) :
  forallb no_eol l = true -> has_eol (record_body l) = false.
Proof.
  intros H. destruct l as [|s l]; [reflexivity |]. destruct l as [|s2 l].
  - cbn [record_body]. destruct (String.eqb s EmptyString); [reflexivity |].
    rewrite has_eol_write_field. cbn [forallb] in H.
    apply andb_true_iff in H as [Hs _]. now apply negb_true_iff in Hs.
  - now apply has_eol_join_fields.
Qed.

Lemma lines_from_plain (s : string) :
  forall cur tail,
    has_eol s = false ->
    lines_from cur (s +:+ CRLF +:+ tail) = (cur +:+ s) :: lines_from EmptyString tail.
Proof.
  induction s as [|c s IH]; intros cur tail H.
  - rewrite append_empty_l, append_empty_r. unfold CRLF.
    rewrite !append_cons, append_empty_l. cbn [lines_from].
    change (Ascii.eqb CR LF) with false. now rewrite !Ascii.eqb_refl.
  - cbn [has_eol] in H. apply orb_false_iff in H as [Hc Hs].
    unfold is_eol in Hc. apply orb_false_iff in Hc as [Hcr Hlf].
    rewrite append_cons. cbn [lines_from]. rewrite Hcr, Hlf.
    rewrite (IH _ _ Hs), append_assoc, append_cons, append_empty_l. reflexivity.
Qed.

Lemma text_lines_file_text (records : list (list string)) :
  forallb (forallb no_eol) records = true ->
  text_lines (file_text records) = map record_body records.
Proof.
  unfold text_lines, file_text.
  induction records as [|l records IH]; intros H; [reflexivity |].
  cbn [forallb] in H. apply andb_true_iff in H as [Hl Hrecords].
  cbn [map cat]. unfold record_text at 1. rewrite append_assoc.
  rewrite lines_from_plain by now apply has_eol_record_body.
  now rewrite append_empty_l, IH.
Qed.

(** ** Dictionaries *)

Lemma comprehension_ext_in {A B} (f g : A -> result B) (l : list A) :
  (forall a, In a l -> f a = g a) -> comprehension f l = comprehension g l.
Proof.
  induction l as [|a l IH]; intros H; [reflexivity |].
  cbn [comprehension]. rewrite (H a) by now left.
  rewrite IH; [reflexivity |]. intros b Hb. apply H. now right.
Qed.

Lemma comprehension_app {A B} (f : A -> result B) (l1 l2 : list A) :
  comprehension f (l1 ++ l2)
  = let? a := comprehension f l1 in
    let? b := comprehension f l2 in
    Ok (a ++ b).
Proof.
  induction l1 as [|a l1 IH].
  - cbn. destruct (comprehension f l2); reflexivity.
  - cbn [app comprehension]. rewrite IH. destruct (f a) as [b | e]; [| reflexivity].
    cbn [rbind]. destruct (comprehension f l1) as [bs | e]; [| reflexivity].
    cbn [rbind]. destruct (comprehension f l2); reflexivity.
Qed.

Lemma existsb_eqb_false (k : string) (l : list string) :
  existsb (String.eqb k) l = false -> forall k', In k' l -> String.eqb k k' = false.
Proof.
  induction l as [|x l IH]; intros H k' Hin; [contradiction |].
  cbn [existsb] in H. apply orb_false_iff in H as [Hx Hl].
  destruct Hin as [<- | Hin]; [exact Hx | now apply IH].
Qed.

(** Looking every key of a dictionary up, in the dictionary's own order,
    visits its values in order. *)
Lemma named_cells_own (d : valmap) :
  dict_wf d = true ->
  named_cells (keys d) d = comprehension first_value (values d).
Proof.
  unfold named_cells, dict_wf.
  induction d as [|[k v] d IH]; intros H; [reflexivity |].
  cbn [keys values map fst snd distinct] in H |- *.
  apply andb_true_iff in H as [Hk Hd]. apply negb_true_iff in Hk.
  cbn [comprehension]. unfold getitem at 1. cbn [dict_get].
  rewrite String.eqb_refl. cbn [rbind].
  rewrite (comprehension_ext_in _
             (fun k' => let? elem := getitem d k' in first_value elem)).
  - fold (keys d). fold (values d). now rewrite (IH Hd).
  - intros k' Hin. unfold getitem. cbn [dict_get].
    now rewrite (existsb_eqb_false k _ Hk k' Hin).
Qed.

Lemma keyed_cells_own (r0 r : row) :
  same_keys r0 r = true -> keys_wf r = true -> keyed_cells r0 r = row_cells r.
Proof.
  unfold same_keys, keys_wf, keyed_cells, row_cells, getitem.
  destruct (dict_get r0 "dimensionValues") as [dv0|]; [| discriminate].
  destruct (dict_get r0 "metricValues") as [mv0|]; [| discriminate].
  destruct (dict_get r "dimensionValues") as [dv|]; [| discriminate].
  destruct (dict_get r "metricValues") as [mv|]; [| discriminate].
  intros Hk Hwf. apply andb_true_iff in Hk as [Hd Hm].
  apply andb_true_iff in Hwf as [Hwd Hwm].
  apply bool_decide_eq_true in Hd, Hm. cbn [rbind].
  rewrite <- Hd, <- Hm, (named_cells_own _ Hwd), (named_cells_own _ Hwm).
  now rewrite comprehension_app.
Qed.

(** ** The exporter on uniform reports *)

(** C1. For a non-empty report of well formed rows that all have the key
    sets of the first row in the same order, the exporter succeeds and the
    file it leaves consists of the header record, which is the dimension key
    names of the first row followed by its metric key names, and then one
    record per row holding, for each column name in header order, the first
    value of the row's entry of that name; read back, the file gives exactly
    these records. On the two-row example of the specification the file has
    exactly the three lines given there. *)
Theorem save_to_csv_header_then_values :
  (forall (r0 : row) (rest : report) (path : string) (w : world),
     forallb well_shaped (r0 :: rest) = true ->
     forallb keys_wf (r0 :: rest) = true ->
     forallb (same_keys r0) (r0 :: rest) = true ->
     exists dv0 mv0 lines,
       dict_get r0 "dimensionValues" = Some dv0 /\
       dict_get r0 "metricValues" = Some mv0 /\
       comprehension (keyed_cells r0) (r0 :: rest) = Ok lines /\
       save_to_csv (r0 :: rest) path w
       = (set_fs (<[path := file_text ((keys dv0 ++ keys mv0)
                                        :: map (map field_text) lines)]> (fs w)) w,
          Ok tt) /\
       csv_reader (file_text ((keys dv0 ++ keys mv0) :: map (map field_text) lines))
       = (keys dv0 ++ keys mv0) :: map (map field_text) lines)
  /\
  (forall (path : string) (w : world),
     exists content,
       save_to_csv example_report path w = (set_fs (<[path := content]> (fs w)) w, Ok tt) /\
       text_lines content
       = ["CAMPAIGN_NAME,COUNTRY,AD_NAME,IMPRESSIONS,INSTALLS,CLICKS";
          "Fall Promo,US,Ad1,100,5,20";
          "Fall Promo,CA,Ad1,50,2,9"] /\
       content = example_file).
Proof.
  split.
  - intros r0 rest path w Hshape Hwf Hsame.
    destruct (save_to_csv_shaped r0 rest path w Hshape) as (header & cells & Hh & Hc & Hrun).
    cbn [forallb] in Hshape. apply andb_true_iff in Hshape as [H0 _].
    destruct (well_shaped_inv r0 H0) as (dv0 & mv0 & c0 & Hdv & Hmv & Hh' & _).
    rewrite Hh in Hh'. injection Hh' as ->.
    exists dv0, mv0, cells. repeat split; try assumption.
    + rewrite <- Hc. apply comprehension_ext_in. intros r Hin.
      apply keyed_cells_own.
      * rewrite forallb_forall in Hsame. now apply Hsame.
      * rewrite forallb_forall in Hwf. now apply Hwf.
    + apply csv_reader_file_text.
  - intros path w. exists example_file.
    destruct (save_to_csv_shaped example_row1 [example_row2] path w eq_refl)
      as (header & cells & Hh & Hc & Hrun).
    injection Hh as <-. injection Hc as <-.
    split; [exact Hrun |]. split; reflexivity.
Qed.

Lemma save_to_csv_header_then_values_witness :
  exists dv0 mv0 lines,
    dict_get example_row1 "dimensionValues" = Some dv0 /\
    dict_get example_row1 "metricValues" = Some mv0 /\
    comprehension (keyed_cells example_row1) example_report = Ok lines /\
    save_to_csv example_report "/tmp/campaign_report.csv" empty_world
    = (set_fs (<["/tmp/campaign_report.csv" :=
                   file_text ((keys dv0 ++ keys mv0) :: map (map field_text) lines)]>
                 (fs empty_world)) empty_world, Ok tt) /\
    csv_reader (file_text ((keys dv0 ++ keys mv0) :: map (map field_text) lines))
    = (keys dv0 ++ keys mv0) :: map (map field_text) lines.
Proof.
  apply (proj1 save_to_csv_header_then_values example_row1 [example_row2]
           "/tmp/campaign_report.csv" empty_world); reflexivity.
Defined.

(** ** Counting records, lines and columns *)

Lemma distinct_NoDup (l : list string) : distinct l = true -> NoDup l.
Proof.
  induction l as [|k l IH]; intros H; [constructor |].
  cbn [distinct] in H. apply andb_true_iff in H as [Hk Hl].
  apply negb_true_iff in Hk. constructor; [| now apply IH].
  intros Hin. apply list_elem_of_In in Hin.
  pose proof (existsb_eqb_false k l Hk k Hin) as E.
  now rewrite String.eqb_refl in E.
Qed.

Lemma subset_b_elem (l1 l2 : list string) :
  subset_b l1 l2 = true -> forall x, x ∈ l1 -> x ∈ l2.
Proof.
  unfold subset_b. rewrite forallb_forall. intros H x Hx.
  apply list_elem_of_In in Hx. apply H in Hx.
  apply existsb_exists in Hx as (y & Hy & E).
  apply String.eqb_eq in E. subst y. now apply list_elem_of_In.
Qed.

Lemma same_set_length (l1 l2 : list string) :
  distinct l1 = true -> distinct l2 = true -> same_set l1 l2 = true ->
  length l1 = length l2.
Proof.
  intros H1 H2 H. unfold same_set in H. apply andb_true_iff in H as [H12 H21].
  apply Permutation_length, NoDup_Permutation; try now apply distinct_NoDup.
  intros x. split; now apply subset_b_elem.
Qed.

(** With the key sets of the first row, a row yields as many cells as the
    header has names. *)
Lemma row_cells_width (r0 r : row) (header : list string) (cells : list scalar) :
  keys_wf r0 = true -> keys_wf r = true -> same_key_sets r0 r = true ->
  well_shaped r = true ->
  header_of r0 = Ok header -> row_cells r = Ok cells ->
  length cells = length header.
Proof.
  intros Hwf0 Hwf Hsame Hshape Hh Hc.
  destruct (well_shaped_inv r Hshape) as (dv & mv & c & Hdv & Hmv & _ & Hc' & _ & Hlen).
  rewrite Hc in Hc'. injection Hc' as <-.
  unfold same_key_sets, keys_wf, header_of, getitem in *. rewrite Hdv, Hmv in *.
  destruct (dict_get r0 "dimensionValues") as [dv0|]; [| discriminate].
  destruct (dict_get r0 "metricValues") as [mv0|]; [| discriminate].
  cbn [rbind] in Hh. injection Hh as <-.
  apply andb_true_iff in Hwf0 as [Hd0 Hm0]. apply andb_true_iff in Hwf as [Hd Hm].
  apply andb_true_iff in Hsame as [Hsd Hsm].
  rewrite Hlen, !length_app.
  now rewrite (same_set_length _ _ Hd Hd0 Hsd), (same_set_length _ _ Hm Hm0 Hsm).
Qed.

Lemma report_cells_width (r0 : row) (header : list string) (rows : report) :
  keys_wf r0 = true -> header_of r0 = Ok header ->
  forall cells,
    forallb well_shaped rows = true ->
    forallb keys_wf rows = true ->
    forallb (same_key_sets r0) rows = true ->
    comprehension row_cells rows = Ok cells ->
    Forall (fun c => length c = length header) cells.
Proof.
  intros Hwf0 Hh. induction rows as [|r rows IH]; intros cells Hshape Hwf Hsame Hc.
  - injection Hc as <-. constructor.
  - cbn [forallb] in Hshape, Hwf, Hsame.
    apply andb_true_iff in Hshape as [Hs1 Hs2]. apply andb_true_iff in Hwf as [Hw1 Hw2].
    apply andb_true_iff in Hsame as [Hk1 Hk2].
    cbn [comprehension] in Hc. destruct (row_cells r) as [c | e] eqn:Hr; [| discriminate].
    cbn [rbind] in Hc.
    destruct (comprehension row_cells rows) as [cs | e]; [| discriminate].
    injection Hc as <-. constructor.
    + now apply (row_cells_width r0 r).
    + now apply IH.
Qed.

Lemma first_values_no_eol (l : list wrapper) :
  forall cells,
    comprehension first_value l = Ok cells ->
    forallb (fun elem : wrapper =>
               match values elem with
               | v :: _ => no_eol (field_text v)
               | [] => true
               end) l = true ->
    forallb no_eol (map field_text cells) = true.
Proof.
  induction l as [|elem l IH]; intros cells Hc H.
  - injection Hc as <-. reflexivity.
  - cbn [forallb] in H. apply andb_true_iff in H as [He Hl].
    cbn [comprehension] in Hc. unfold first_value at 1 in Hc.
    destruct (values elem) as [|v vs]; [discriminate |]. cbn [rbind] in Hc.
    destruct (comprehension first_value l) as [cs | e]; [| discriminate].
    injection Hc as <-. cbn [map forallb]. rewrite He. now apply IH.
Qed.

Lemma report_cells_no_eol (rows : report) :
  forall cells,
    forallb well_shaped rows = true ->
    forallb no_line_breaks rows = true ->
    comprehension row_cells rows = Ok cells ->
    forallb (forallb no_eol) (map (map field_text) cells) = true.
Proof.
  induction rows as [|r rows IH]; intros cells Hshape Hplain Hc.
  - injection Hc as <-. reflexivity.
  - cbn [forallb] in Hshape, Hplain.
    apply andb_true_iff in Hshape as [Hs1 Hs2]. apply andb_true_iff in Hplain as [Hp1 Hp2].
    destruct (well_shaped_inv r Hs1) as (dv & mv & c & Hdv & Hmv & _ & Hr & Hfv & _).
    cbn [comprehension] in Hc. rewrite Hr in Hc. cbn [rbind] in Hc.
    destruct (comprehension row_cells rows) as [cs | e]; [| discriminate].
    injection Hc as <-. cbn [map forallb]. rewrite (IH cs Hs2 Hp2 eq_refl), andb_true_r.
    unfold no_line_breaks in Hp1. rewrite Hdv, Hmv in Hp1.
    apply andb_true_iff in Hp1 as [_ Hvals]. now apply (first_values_no_eol _ _ Hfv).
Qed.

(** C2, as amended. For a non-empty report of N well formed rows with the
    key sets of the first row, the file holds exactly 1 + N records and every
    record has as many fields as the header record. When moreover no column
    name and no written value holds a carriage return or a line feed, the
    file has exactly 1 + N text lines and every line has the column count of
    the header line. *)
Theorem save_to_csv_counts
    (r0 : row) (rest : report) (path : string) (w : world) :
  forallb well_shaped (r0 :: rest) = true ->
  forallb keys_wf (r0 :: rest) = true ->
  forallb (same_key_sets r0) (r0 :: rest) = true ->
  exists content,
    save_to_csv (r0 :: rest) path w = (set_fs (<[path := content]> (fs w)) w, Ok tt) /\
    length (csv_reader content) = 1 + length (r0 :: rest) /\
    (forall rec, In rec (csv_reader content) ->
       length rec = length (hd [] (csv_reader content))) /\
    (forallb no_line_breaks (r0 :: rest) = true ->
     length (text_lines content) = 1 + length (r0 :: rest) /\
     forall line, In line (text_lines content) ->
       column_count line = column_count (hd EmptyString (text_lines content))).
Proof.
  intros Hshape Hwf Hsame.
  destruct (save_to_csv_shaped r0 rest path w Hshape) as (header & cells & Hh & Hc & Hrun).
  destruct (shaped_cells _ Hshape) as (cells' & Hc' & Hlen).
  rewrite Hc in Hc'. injection Hc' as <-.
  assert (Hwf0 : keys_wf r0 = true).
  { cbn [forallb] in Hwf. now apply andb_true_iff in Hwf as [? _]. }
  pose proof (report_cells_width r0 header _ Hwf0 Hh cells Hshape Hwf Hsame Hc) as Hwidth.
  exists (file_text (header :: map (map field_text) cells)).
  split; [exact Hrun |]. rewrite csv_reader_file_text. cbn [hd].
  split; [cbn [length]; now rewrite length_map, Hlen |]. split.
  - intros rec [<- | Hin]; [reflexivity |].
    apply in_map_iff in Hin as (c & <- & Hin). rewrite length_map.
    rewrite Forall_forall in Hwidth. apply Hwidth. now apply list_elem_of_In.
  - intros Hplain.
    assert (Hhead : forallb no_eol header = true).
    { cbn [forallb] in Hshape, Hplain.
      apply andb_true_iff in Hshape as [H0 _]. apply andb_true_iff in Hplain as [P0 _].
      destruct (well_shaped_inv r0 H0) as (dv & mv & c & Hdv & Hmv & Hh' & _).
      rewrite Hh in Hh'. injection Hh' as ->.
      unfold no_line_breaks in P0. rewrite Hdv, Hmv in P0.
      now apply andb_true_iff in P0 as [? _]. }
    rewrite text_lines_file_text.
    2:{ cbn [forallb]. rewrite Hhead. now apply (report_cells_no_eol (r0 :: rest)). }
    cbn [map hd]. split; [cbn [length]; now rewrite !length_map, Hlen |].
    rewrite column_count_record_body.
    intros line [<- | Hin]; [apply column_count_record_body |].
    apply in_map_iff in Hin as (rec & <- & Hin). rewrite column_count_record_body.
    apply in_map_iff in Hin as (c & <- & Hin). rewrite length_map.
    rewrite Forall_forall in Hwidth. apply Hwidth. now apply list_elem_of_In.
Qed.

Lemma save_to_csv_counts_witness :
  exists content,
    save_to_csv example_report "/tmp/campaign_report.csv" empty_world
    = (set_fs (<["/tmp/campaign_report.csv" := content]> (fs empty_world)) empty_world,
       Ok tt) /\
    length (csv_reader content) = 1 + length example_report /\
    (forall rec, In rec (csv_reader content) ->
       length rec = length (hd [] (csv_reader content))) /\
    (forallb no_line_breaks example_report = true ->
     length (text_lines content) = 1 + length example_report /\
     forall line, In line (text_lines content) ->
       column_count line = column_count (hd EmptyString (text_lines content))).
Proof.
  apply (save_to_csv_counts example_row1 [example_row2]
           "/tmp/campaign_report.csv" empty_world); reflexivity.
Defined.

(** C2, as stated, fails: a one-row report whose value holds a line feed is
    written as two records that take three text lines. *)
Lemma multiline_value_adds_a_line :
  forallb well_shaped multiline_report = true /\
  forallb keys_wf multiline_report = true /\
  (forall r0, hd_error multiline_report = Some r0 ->
     forallb (same_key_sets r0) multiline_report = true) /\
  exists content,
    save_to_csv multiline_report "/tmp/campaign_report.csv" empty_world
    = (set_fs (<["/tmp/campaign_report.csv" := content]> (fs empty_world)) empty_world,
       Ok tt) /\
    length (text_lines content) = 3 /\
    length (text_lines content) <> 1 + length multiline_report.
Proof.
  split; [reflexivity |]. split; [reflexivity |]. split.
  - intros r0 [= <-]. reflexivity.
  - destruct multiline_report as [|r0 rest] eqn:E; [discriminate |].
    destruct (save_to_csv_shaped r0 rest "/tmp/campaign_report.csv" empty_world)
      as (header & cells & Hh & Hc & Hrun).
    { rewrite <- E. reflexivity. }
    injection E as <- <-. injection Hh as <-. injection Hc as <-.
    eexists. split; [exact Hrun |]. split; [reflexivity |].
    intros H. vm_compute in H. discriminate H.
Qed.

(** ** Reading the file back into rows *)

Lemma map_snd_combine_same_length {A B} (l1 : list A) :
  forall l2 : list B, length l2 = length l1 -> map snd (combine l1 l2) = l2.
Proof.
  induction l1 as [|a l1 IH]; intros [|b l2] H; try discriminate; [reflexivity |].
  cbn [combine map snd]. injection H as H. now rewrite IH.
Qed.

Lemma same_file_for_int_and_str :
  (save_to_csv int_report "/tmp/campaign_report.csv" empty_world).1
  = (save_to_csv str_report "/tmp/campaign_report.csv" empty_world).1.
Proof.
  unfold int_report, str_report. now rewrite !save_to_csv_run.
Qed.

(** C6, as stated, fails: the number 20 and the string ['20'] are written as
    the same file, so no way of re-parsing the file reproduces the original
    values of both [int_report] and [str_report]. *)
Lemma no_reader_recovers_value_types :
  ~ exists reparse : string -> list (list scalar),
      forall (rep : report) (content : string) (cells : list (list scalar)),
        rep <> [] ->
        forallb well_shaped rep = true ->
        forallb keys_wf rep = true ->
        (forall r0, hd_error rep = Some r0 -> forallb (same_key_sets r0) rep = true) ->
        fs (save_to_csv rep "/tmp/campaign_report.csv" empty_world).1
          !! "/tmp/campaign_report.csv" = Some content ->
        comprehension row_cells rep = Ok cells ->
        reparse content = cells.
Proof.
  intros [reparse H].
  destruct (fs (save_to_csv str_report "/tmp/campaign_report.csv" empty_world).1
              !! "/tmp/campaign_report.csv") as [content |] eqn:E.
  - assert (H1 : reparse content = [[PInt 20]]).
    { apply (H int_report); try reflexivity; try discriminate.
      + intros r0 [= <-]. reflexivity.
      + now rewrite same_file_for_int_and_str. }
    assert (H2 : reparse content = [[PStr "20"]]).
    { apply (H str_report); try reflexivity; try discriminate; try assumption.
      intros r0 [= <-]. reflexivity. }
    rewrite H1 in H2. discriminate H2.
  - unfold str_report in E. rewrite save_to_csv_run in E. cbn in E.
    now rewrite lookup_insert_eq in E.
Qed.

(** ** Rows that do not match the header *)

Lemma cells_lookup (rows : report) :
  forall cells i r,
    comprehension row_cells rows = Ok cells ->
    rows !! i = Some r ->
    exists own,
      row_cells r = Ok own /\
      map (map field_text) cells !! i = Some (map field_text own).
Proof.
  induction rows as [|r' rows IH]; intros cells i r Hc Hi; [discriminate |].
  cbn [comprehension] in Hc. destruct (row_cells r') as [c | e] eqn:Hr; [| discriminate].
  cbn [rbind] in Hc. destruct (comprehension row_cells rows) as [cs | e]; [| discriminate].
  injection Hc as <-. destruct i as [|i].
  - injection Hi as <-. exists c. split; [exact Hr | reflexivity].
  - cbn in Hi. destruct (IH cs i r eq_refl Hi) as (own & Hown & Hlook).
    exists own. split; [exact Hown | exact Hlook].
Qed.

(** ** Rows of the wrong shape *)

Lemma comprehension_first_value_ill (l : list wrapper) :
  forallb nonempty l = false -> comprehension first_value l = Raise IndexError.
Proof.
  induction l as [|elem l IH]; intros H; [discriminate |].
  cbn [forallb] in H. cbn [comprehension]. unfold first_value at 1.
  destruct elem as [|[k v] elem]; [reflexivity |].
  cbn [nonempty andb values map snd rbind] in H |- *. now rewrite (IH H).
Qed.

Lemma row_cells_ill (r : row) :
  well_shaped r = false ->
  exists e, row_cells r = Raise e /\ key_or_index e = true.
Proof.
  unfold well_shaped, row_cells, getitem. intros H.
  destruct (dict_get r "dimensionValues") as [dv|];
    [| now exists (KeyError "dimensionValues")].
  destruct (dict_get r "metricValues") as [mv|];
    [| now exists (KeyError "metricValues")].
  cbn [rbind]. rewrite (comprehension_first_value_ill _ H). now exists IndexError.
Qed.

Lemma header_of_ill (r : row) (e : exn) :
  header_of r = Raise e -> well_shaped r = false /\ key_or_index e = true.
Proof.
  unfold well_shaped, header_of, getitem.
  destruct (dict_get r "dimensionValues") as [dv|]; [| now intros [= <-]].
  destruct (dict_get r "metricValues") as [mv|]; [| now intros [= <-]].
  discriminate.
Qed.

Lemma rows_outcome_ill (rows : report) :
  forall acc,
    existsb (fun r => negb (well_shaped r)) rows = true ->
    exists e cells,
      key_or_index e = true /\
      comprehension row_cells (shaped_prefix rows) = Ok cells /\
      rows_outcome rows acc
      = (acc +:+ file_text (map (map field_text) cells), Raise e).
Proof.
  induction rows as [|r rows IH]; intros acc H; [discriminate |].
  cbn [existsb] in H. cbn [shaped_prefix rows_outcome].
  destruct (well_shaped r) eqn:Hr.
  - cbn [negb orb] in H.
    destruct (well_shaped_inv r Hr) as (dv & mv & c & _ & _ & _ & Hc & _).
    rewrite Hc.
    destruct (IH (acc +:+ record_text (map field_text c)) H) as (e & cells & He & Hcs & Hout).
    exists e, (c :: cells). split; [exact He |]. split.
    + cbn [comprehension]. rewrite Hc. cbn [rbind]. now rewrite Hcs.
    + rewrite Hout. unfold file_text. cbn [map cat]. now rewrite append_assoc.
  - destruct (row_cells_ill r Hr) as (e & He & Hk). rewrite He.
    exists e, []. split; [exact Hk |]. split; [reflexivity |].
    unfold file_text. cbn [map cat]. now rewrite append_empty_r.
Qed.

(** C10. On a non-empty report with a row that lacks one of the two value
    mappings or has an empty value wrapper, the exporter raises [KeyError]
    or [IndexError]. The file has been opened by then: it holds nothing if
    the header could not be built from the first row, and otherwise the
    header and the records of the rows before the first such row. *)
Theorem save_to_csv_raises_on_ill_shaped
    (rep : report) (path : string) (w : world) :
  rep <> [] ->
  existsb (fun r => negb (well_shaped r)) rep = true ->
  exists e cells,
    key_or_index e = true /\
    comprehension row_cells (shaped_prefix rep) = Ok cells /\
    save_to_csv rep path w
    = (set_fs (<[path := partial_file rep cells]> (fs w)) w, Raise e).
Proof.
  intros Hne Hill. destruct rep as [|r0 rest]; [contradiction |].
  rewrite save_to_csv_run. unfold partial_file.
  destruct (header_of r0) as [header | e] eqn:Hh.
  - destruct (rows_outcome_ill (r0 :: rest) (record_text header) Hill)
      as (e & cells & He & Hcs & Hout).
    exists e, cells. split; [exact He |]. split; [exact Hcs |].
    now rewrite Hout.
  - destruct (header_of_ill r0 e Hh) as [Hr He].
    exists e, []. split; [exact He |]. split; [| reflexivity].
    cbn [shaped_prefix]. now rewrite Hr.
Qed.

Lemma save_to_csv_raises_on_ill_shaped_witness :
  exists e cells,
    key_or_index e = true /\
    comprehension row_cells (shaped_prefix [example_row1; hollow_row]) = Ok cells /\
    save_to_csv [example_row1; hollow_row] "/tmp/campaign_report.csv" empty_world
    = (set_fs (<["/tmp/campaign_report.csv" :=
                   partial_file [example_row1; hollow_row] cells]> (fs empty_world))
         empty_world, Raise e).
Proof.
  apply (save_to_csv_raises_on_ill_shaped [example_row1; hollow_row]
           "/tmp/campaign_report.csv" empty_world); [discriminate | reflexivity].
Defined.

(** An empty wrapper in the second row: [IndexError], after the header and
    the first row have been written. *)
Example hollow_row_raises_index_error :
  exists content,
    save_to_csv [example_row1; hollow_row] "/tmp/campaign_report.csv" empty_world
    = (set_fs (<["/tmp/campaign_report.csv" := content]> (fs empty_world)) empty_world,
       Raise IndexError) /\
    text_lines content
    = ["CAMPAIGN_NAME,COUNTRY,AD_NAME,IMPRESSIONS,INSTALLS,CLICKS";
       "Fall Promo,US,Ad1,100,5,20"].
Proof.
  rewrite save_to_csv_run. eexists. split; reflexivity.
Qed.

(** A first row without metrics: [KeyError], and the file is left empty. *)
Example half_row_raises_key_error :
  save_to_csv [half_row] "/tmp/campaign_report.csv" empty_world
  = (set_fs (<["/tmp/campaign_report.csv" := EmptyString]> (fs empty_world)) empty_world,
     Raise (KeyError "metricValues")).
Proof. now rewrite save_to_csv_run. Qed.

(** * Further properties of the script *)

(** ** The exporter *)

(** X2. Exporting the same report twice to the same path leaves the world
    and the outcome of a single export, also when the export fails. *)
Theorem save_to_csv_idempotent (rep : report) (path : string) (w : world) :
  save_to_csv rep path (save_to_csv rep path w).1 = save_to_csv rep path w.
Proof.
  destruct rep as [|r0 rest]; [reflexivity |].
  rewrite !save_to_csv_run.
  destruct (header_of r0) as [header | e]; cbn [fst fs set_fs];
    now rewrite insert_insert_eq.
Qed.

(** X3. A non-empty report overwrites: what the file at the path held
    before has no influence on the world and the outcome of the export. *)
Theorem save_to_csv_overwrites
    (rep : report) (path old : string) (w : world) :
  rep <> [] ->
  save_to_csv rep path (set_fs (<[path := old]> (fs w)) w) = save_to_csv rep path w.
Proof.
  intros Hne. destruct rep as [|r0 rest]; [contradiction |].
  rewrite !save_to_csv_run.
  destruct (header_of r0) as [header | e]; cbn [fst fs set_fs];
    now rewrite insert_insert_eq.
Qed.

Lemma save_to_csv_overwrites_witness :
  save_to_csv example_report "/tmp/campaign_report.csv"
    (set_fs (<["/tmp/campaign_report.csv" := "stale"]> (fs empty_world)) empty_world)
  = save_to_csv example_report "/tmp/campaign_report.csv" empty_world.
Proof.
  apply (save_to_csv_overwrites example_report "/tmp/campaign_report.csv" "stale"
           empty_world).
  discriminate.
Defined.

(** X4. Whatever the report and however the export ends, every file at
    another path is as before, and the exporter makes no API call and prints
    nothing. *)
Theorem save_to_csv_frame
    (rep : report) (path other : string) (w : world) :
  other <> path ->
  fs (save_to_csv rep path w).1 !! other = fs w !! other /\
  calls (save_to_csv rep path w).1 = calls w /\
  stdout (save_to_csv rep path w).1 = stdout w.
Proof.
  intros Hne. destruct rep as [|r0 rest]; [repeat split |].
  rewrite save_to_csv_run.
  destruct (header_of r0) as [header | e]; cbn [fst fs calls stdout set_fs];
    (split; [now apply lookup_insert_ne | repeat split]).
Qed.

Lemma save_to_csv_frame_witness :
  fs (save_to_csv example_report "/tmp/campaign_report.csv"
        (set_fs {["/tmp/notes.txt" := "keep"]} empty_world)).1 !! "/tmp/notes.txt"
  = Some "keep".
Proof.
  refine (eq_trans (proj1 (save_to_csv_frame example_report
    "/tmp/campaign_report.csv" "/tmp/notes.txt"
    (set_fs {["/tmp/notes.txt" := "keep"]} empty_world) _)) _);
    [discriminate | reflexivity].
Defined.

Lemma dict_get_trim_row (r : row) (k : string) :
  dict_get (trim_row r) k = trim_valmap <$> dict_get r k.
Proof.
  induction r as [|[k' d] r IH]; [reflexivity |].
  cbn [trim_row map dict_get fst snd]. destruct (String.eqb k' k); [reflexivity | exact IH].
Qed.

Lemma keys_trim_valmap (d : valmap) : keys (trim_valmap d) = keys d.
Proof.
  unfold keys, trim_valmap. induction d as [|[k e] d IH]; [reflexivity |].
  cbn [map fst]. now rewrite IH.
Qed.

Lemma first_values_trim (d1 d2 : valmap) :
  comprehension first_value (values (trim_valmap d1) ++ values (trim_valmap d2))
  = comprehension first_value (values d1 ++ values d2).
Proof.
  rewrite !comprehension_app.
  assert (H : forall d : valmap,
             comprehension first_value (values (trim_valmap d))
             = comprehension first_value (values d)).
  { unfold values, trim_valmap. induction d as [|[k e] d IH]; [reflexivity |].
    cbn [map snd comprehension]. rewrite IH. now destruct e. }
  now rewrite !H.
Qed.

Lemma header_of_trim_row (r : row) : header_of (trim_row r) = header_of r.
Proof.
  unfold header_of, getitem. rewrite !dict_get_trim_row.
  destruct (dict_get r "dimensionValues") as [dv|]; [| reflexivity].
  destruct (dict_get r "metricValues") as [mv|]; [| reflexivity].
  cbn. now rewrite !keys_trim_valmap.
Qed.

Lemma row_cells_trim_row (r : row) : row_cells (trim_row r) = row_cells r.
Proof.
  unfold row_cells, getitem. rewrite !dict_get_trim_row.
  destruct (dict_get r "dimensionValues") as [dv|]; [| reflexivity].
  destruct (dict_get r "metricValues") as [mv|]; [| reflexivity].
  cbn [fmap option_fmap option_map rbind]. apply first_values_trim.
Qed.

Lemma rows_outcome_trim (rows : report) :
  forall acc, rows_outcome (map trim_row rows) acc = rows_outcome rows acc.
Proof.
  induction rows as [|r rows IH]; intros acc; [reflexivity |].
  cbn [map rows_outcome]. rewrite row_cells_trim_row.
  destruct (row_cells r); [apply IH | reflexivity].
Qed.

(** X5. Only the first entry of a value wrapper reaches the file: dropping
    every further entry (a display label, say) from every wrapper of every
    row changes neither the file nor the outcome. *)
Theorem save_to_csv_reads_first_entry_only
    (rep : report) (path : string) (w : world) :
  save_to_csv (map trim_row rep) path w = save_to_csv rep path w.
Proof.
  destruct rep as [|r0 rest]; [reflexivity |].
  cbn [map]. rewrite !save_to_csv_run, header_of_trim_row.
  destruct (header_of r0) as [header | e]; [| reflexivity].
  change (trim_row r0 :: map trim_row rest) with (map trim_row (r0 :: rest)).
  now rewrite rows_outcome_trim.
Qed.

Lemma row_cells_ill_exact (r : row) :
  well_shaped r = false -> row_cells r = Raise (row_exn r).
Proof.
  unfold well_shaped, row_cells, row_exn, getitem. intros H.
  destruct (dict_get r "dimensionValues") as [dv|]; [| reflexivity].
  destruct (dict_get r "metricValues") as [mv|]; [| reflexivity].
  cbn [rbind]. now apply comprehension_first_value_ill.
Qed.

Lemma rows_outcome_first_ill (good : report) (r : row) (rest : report) :
  forall acc,
    forallb well_shaped good = true -> well_shaped r = false ->
    (rows_outcome (good ++ r :: rest) acc).2 = Raise (row_exn r).
Proof.
  induction good as [|g good IH]; intros acc Hgood Hr.
  - cbn [app rows_outcome]. now rewrite (row_cells_ill_exact r Hr).
  - cbn [forallb] in Hgood. apply andb_true_iff in Hgood as [Hg Hgood].
    destruct (well_shaped_inv g Hg) as (dv & mv & c & _ & _ & _ & Hc & _).
    cbn [app rows_outcome]. rewrite Hc. now apply IH.
Qed.

Lemma save_to_csv_raise_first_ill
    (good : report) (r : row) (rest : report) (path : string) (w : world) :
  forallb well_shaped good = true ->
  well_shaped r = false ->
  (save_to_csv (good ++ r :: rest) path w).2 = Raise (row_exn r).
Proof.
  intros Hgood Hr.
  destruct (good ++ r :: rest) as [|r0 rows] eqn:E; [now destruct good |].
  rewrite save_to_csv_run.
  destruct (header_of r0) as [header | e] eqn:Hh.
  - cbn [snd]. rewrite <- E. now apply rows_outcome_first_ill.
  - cbn [snd]. destruct (header_of_ill r0 e Hh) as [H0 _].
    destruct good as [|g good].
    + injection E as -> _. unfold header_of, row_exn, getitem in *.
      destruct (dict_get r0 "dimensionValues") as [dv|]; [| now injection Hh as <-].
      destruct (dict_get r0 "metricValues") as [mv|]; [| now injection Hh as <-].
      discriminate Hh.
    + injection E as -> _. cbn [forallb] in Hgood.
      apply andb_true_iff in Hgood as [Hg _]. congruence.
Qed.

(** X6. The exception comes from the first row that is not well shaped, and
    its kind follows the order of evaluation: [KeyError('dimensionValues')]
    if that mapping is missing, else [KeyError('metricValues')] if that one
    is, and [IndexError] only when both are there and some wrapper is
    empty. A missing mapping thus wins over an empty wrapper of the same
    row. *)
Theorem save_to_csv_first_ill_row_decides
    (good : report) (r : row) (rest : report) (path : string) (w : world) :
  forallb well_shaped good = true ->
  well_shaped r = false ->
  (save_to_csv (good ++ r :: rest) path w).2 = Raise (row_exn r).
Proof. apply save_to_csv_raise_first_ill. Qed.

Lemma save_to_csv_first_ill_row_decides_witness :
  (save_to_csv [example_row1; half_row; hollow_row] "/tmp/campaign_report.csv"
     empty_world).2
  = Raise (KeyError "metricValues").
Proof.
  apply (save_to_csv_first_ill_row_decides [example_row1] half_row [hollow_row]
           "/tmp/campaign_report.csv" empty_world); reflexivity.
Defined.

Lemma save_to_csv_written
    (r0 : row) (rest : report) (path : string) (w : world)
    (header : list string) (cells : list (list scalar)) :
  header_of r0 = Ok header ->
  comprehension row_cells (r0 :: rest) = Ok cells ->
  save_to_csv (r0 :: rest) path w
  = (set_fs (<[path := file_text (header :: map (map field_text) cells)]> (fs w)) w,
     Ok tt).
Proof.
  intros Hh Hc. now rewrite save_to_csv_run, Hh, (rows_outcome_ok _ _ _ Hc).
Qed.

(** X7. The file determines the table: two reports that are exported to the
    same file content have the same header names and, row by row, the same
    value texts. *)
Theorem save_to_csv_file_determines_texts
    (a0 b0 : row) (arest brest : report) (path : string) (w w' : world)
    (ha hb : list string) (ca cb : list (list scalar)) :
  header_of a0 = Ok ha -> comprehension row_cells (a0 :: arest) = Ok ca ->
  header_of b0 = Ok hb -> comprehension row_cells (b0 :: brest) = Ok cb ->
  fs (save_to_csv (a0 :: arest) path w).1 !! path
  = fs (save_to_csv (b0 :: brest) path w').1 !! path ->
  ha = hb /\ map (map field_text) ca = map (map field_text) cb.
Proof.
  intros Hha Hca Hhb Hcb H.
  rewrite (save_to_csv_written _ _ _ _ _ _ Hha Hca) in H.
  rewrite (save_to_csv_written _ _ _ _ _ _ Hhb Hcb) in H.
  cbn [fst fs set_fs] in H. rewrite !lookup_insert_eq in H. injection H as H.
  apply (f_equal csv_reader) in H. rewrite !csv_reader_file_text in H.
  now injection H.
Qed.

Lemma save_to_csv_file_determines_texts_witness :
  ["CLICKS"] = ["CLICKS"] /\
  map (map field_text) [[PInt 20]] = map (map field_text) [[PStr "20"]].
Proof.
  refine (save_to_csv_file_determines_texts
            (mk_row [] [("CLICKS", [("integerValue", PInt 20)])])
            (mk_row [] [("CLICKS", [("integerValue", PStr "20")])])
            [] [] "/tmp/campaign_report.csv" empty_world empty_world
            ["CLICKS"] ["CLICKS"] [[PInt 20]] [[PStr "20"]] _ _ _ _ _);
    reflexivity.
Defined.

Lemma plain_no_eol (s : string) : plain s = true -> no_eol s = true.
Proof.
  unfold plain, no_eol. intros H. apply negb_true_iff in H. apply negb_true_iff.
  induction s as [|c s IH]; [reflexivity |].
  cbn [has_special has_eol] in H |- *. apply orb_false_iff in H as [Hc Hs].
  destruct (special_false c Hc) as (_ & _ & Hcr & Hlf).
  unfold is_eol. now rewrite Hcr, Hlf, (IH Hs).
Qed.

Lemma join_fields_plain (l : list string) :
  forallb plain l = true -> join_fields l = comma_join l.
Proof.
  induction l as [|s l IH]; intros H; [reflexivity |].
  cbn [forallb] in H. apply andb_true_iff in H as [Hs Hl].
  unfold plain in Hs. apply negb_true_iff in Hs.
  destruct l as [|s2 l].
  - cbn [join_fields comma_join]. unfold write_field. now rewrite Hs.
  - change (join_fields (s :: s2 :: l))
      with (write_field s +:+ String COMMA (join_fields (s2 :: l))).
    change (comma_join (s :: s2 :: l))
      with (s +:+ String COMMA (comma_join (s2 :: l))).
    rewrite (IH Hl). unfold write_field. now rewrite Hs.
Qed.

Lemma record_body_plain (l : list string) :
  forallb plain l = true -> not_lone_empty l = true -> record_body l = comma_join l.
Proof.
  intros Hp Hne. destruct l as [|s l]; [reflexivity |]. destruct l as [|s2 l].
  - cbn [record_body comma_join not_lone_empty] in *.
    apply negb_true_iff in Hne. rewrite Hne.
    cbn [forallb] in Hp. apply andb_true_iff in Hp as [Hs _].
    unfold plain in Hs. apply negb_true_iff in Hs. unfold write_field. now rewrite Hs.
  - now apply join_fields_plain.
Qed.

Lemma map_record_body_plain (records : list (list string)) :
  forallb (forallb plain) records = true ->
  forallb not_lone_empty records = true ->
  map record_body records = map comma_join records /\
  forallb (forallb no_eol) records = true.
Proof.
  induction records as [|l records IH]; intros Hp Hne; [split; reflexivity |].
  cbn [forallb] in Hp, Hne. apply andb_true_iff in Hp as [Hl Hp].
  apply andb_true_iff in Hne as [Hn Hne]. destruct (IH Hp Hne) as [IH1 IH2].
  cbn [map forallb]. rewrite (record_body_plain l Hl Hn), IH1, IH2. split; [reflexivity |].
  rewrite andb_true_r. clear -Hl. induction l as [|s l IHl]; [reflexivity |].
  cbn [forallb] in Hl |- *. apply andb_true_iff in Hl as [Hs Hl].
  now rewrite (plain_no_eol s Hs), (IHl Hl).
Qed.

(** X8. Ordinary values are written verbatim: when no column name and no
    value text contains a comma, a double quote, a carriage return or a
    line feed, and no record consists of one empty field, the lines of the
    file are the header names joined by commas followed, row by row, by the
    value texts joined by commas, with no quoting at all. *)
Theorem save_to_csv_plain_lines
    (r0 : row) (rest : report) (path : string) (w : world)
    (header : list string) (cells : list (list scalar)) :
  header_of r0 = Ok header ->
  comprehension row_cells (r0 :: rest) = Ok cells ->
  forallb (forallb plain) (header :: map (map field_text) cells) = true ->
  forallb not_lone_empty (header :: map (map field_text) cells) = true ->
  exists content,
    fs (save_to_csv (r0 :: rest) path w).1 !! path = Some content /\
    text_lines content = map comma_join (header :: map (map field_text) cells).
Proof.
  intros Hh Hc Hp Hne.
  exists (file_text (header :: map (map field_text) cells)).
  rewrite (save_to_csv_written _ _ _ _ _ _ Hh Hc). cbn [fst fs set_fs].
  split; [apply lookup_insert_eq |].
  destruct (map_record_body_plain _ Hp Hne) as [Hbody Heol].
  now rewrite text_lines_file_text, Hbody.
Qed.

Lemma save_to_csv_plain_lines_witness :
  exists content,
    fs (save_to_csv example_report "/tmp/campaign_report.csv" empty_world).1
      !! "/tmp/campaign_report.csv" = Some content /\
    text_lines content
    = map comma_join
        [["CAMPAIGN_NAME"; "COUNTRY"; "AD_NAME"; "IMPRESSIONS"; "INSTALLS"; "CLICKS"];
         ["Fall Promo"; "US"; "Ad1"; "100"; "5"; "20"];
         ["Fall Promo"; "CA"; "Ad1"; "50"; "2"; "9"]].
Proof.
  apply (save_to_csv_plain_lines example_row1 [example_row2]
           "/tmp/campaign_report.csv" empty_world
           ["CAMPAIGN_NAME"; "COUNTRY"; "AD_NAME"; "IMPRESSIONS"; "INSTALLS"; "CLICKS"]
           [[PStr "Fall Promo"; PStr "US"; PStr "Ad1"; PInt 100; PInt 5; PInt 20];
            [PStr "Fall Promo"; PStr "CA"; PStr "Ad1"; PInt 50; PInt 2; PInt 9]]);
    reflexivity.
Defined.

(** ** The fetcher *)

(** X9. A failure of the reporting call reaches the caller of the fetcher
    as it is; the call has been made and logged, no file has been touched
    and nothing has been printed. *)
Theorem fetcher_propagates_failure
    (svc : service) (publisher_id : string) (w : world) (e : exn) :
  campaignReport_generate svc ("accounts/" +:+ publisher_id) fixed_request = Raise e ->
  (generate_campaign_report svc publisher_id w).2 = Raise e /\
  calls (generate_campaign_report svc publisher_id w).1
  = calls w ++ [CampaignReportGenerate ("accounts/" +:+ publisher_id) fixed_request] /\
  fs (generate_campaign_report svc publisher_id w).1 = fs w /\
  stdout (generate_campaign_report svc publisher_id w).1 = stdout w.
Proof.
  intros H. rewrite generate_campaign_report_run, H. repeat split.
Qed.

Lemma fetcher_propagates_failure_witness :
  (generate_campaign_report failing_service PUBLISHER_ID empty_world).2
  = Raise (RemoteError "503").
Proof.
  apply (fetcher_propagates_failure failing_service PUBLISHER_ID empty_world
           (RemoteError "503")).
  reflexivity.
Defined.

(** X10. A response of the reporting call that has no ['rows'] entry,
    whatever else it holds, makes the fetcher raise [KeyError('rows')]. *)
Theorem fetcher_needs_rows_entry
    (svc : service) (publisher_id : string) (w : world) (resp : response) :
  campaignReport_generate svc ("accounts/" +:+ publisher_id) fixed_request = Ok resp ->
  dict_get resp "rows" = None ->
  (generate_campaign_report svc publisher_id w).2 = Raise (KeyError "rows").
Proof.
  intros Hsvc Hrows. rewrite generate_campaign_report_run, Hsvc.
  cbn [snd rbind]. unfold getitem. now rewrite Hrows.
Qed.

Lemma fetcher_needs_rows_entry_witness :
  (generate_campaign_report (service_answering [("footer", [])]) PUBLISHER_ID
     empty_world).2
  = Raise (KeyError "rows").
Proof.
  apply (fetcher_needs_rows_entry (service_answering [("footer", [])]) PUBLISHER_ID
           empty_world [("footer", [])]); reflexivity.
Defined.

(** ** The uploader *)

(** X11. When the file to upload does not exist, the uploader raises
    [FileNotFoundError] for that path after it has authenticated: no
    creation request is sent and nothing is printed. *)
Theorem upload_missing_file
    (env : environment) (path : string) (w : world) (svc : service) :
  authenticate env (Some "drive") "v3"
    ["https://www.googleapis.com/auth/drive.file"] = Ok svc ->
  fs w !! path = None ->
  (upload_csv_to_google_sheets env path w).2 = Raise (FileNotFoundError path) /\
  calls (upload_csv_to_google_sheets env path w).1
  = calls w ++
    [Authenticate (Some "drive") "v3" ["https://www.googleapis.com/auth/drive.file"]] /\
  stdout (upload_csv_to_google_sheets env path w).1 = stdout w.
Proof.
  intros Hauth Hfile. rewrite upload_run. cbv zeta. unfold drive_scopes.
  rewrite Hauth, Hfile. repeat split.
Qed.

Lemma upload_missing_file_witness :
  (upload_csv_to_google_sheets sample_env "/tmp/campaign_report.csv" empty_world).2
  = Raise (FileNotFoundError "/tmp/campaign_report.csv").
Proof.
  apply (upload_missing_file sample_env "/tmp/campaign_report.csv" empty_world
           (service_answering [("rows", [])])); reflexivity.
Defined.

(** X12. A failed Drive authentication ends the upload with that very
    failure, whether or not the file exists: the file is not opened, no
    creation request is sent and nothing is printed. *)
Theorem upload_authentication_failure
    (env : environment) (path : string) (w : world) (e : exn) :
  authenticate env (Some "drive") "v3"
    ["https://www.googleapis.com/auth/drive.file"] = Raise e ->
  (upload_csv_to_google_sheets env path w).2 = Raise e /\
  calls (upload_csv_to_google_sheets env path w).1
  = calls w ++
    [Authenticate (Some "drive") "v3" ["https://www.googleapis.com/auth/drive.file"]] /\
  stdout (upload_csv_to_google_sheets env path w).1 = stdout w.
Proof.
  intros Hauth. rewrite upload_run. cbv zeta. unfold drive_scopes.
  rewrite Hauth. repeat split.
Qed.

Lemma upload_authentication_failure_witness :
  (upload_csv_to_google_sheets failing_env "/tmp/none.csv" empty_world).2
  = Raise (RemoteError "invalid_grant").
Proof.
  apply (upload_authentication_failure failing_env "/tmp/none.csv" empty_world
           (RemoteError "invalid_grant")).
  reflexivity.
Defined.

(** X13. A failure of the creation request reaches the caller as it is;
    the request has been sent once, and the success message is not
    printed. *)
Theorem upload_creation_failure
    (env : environment) (path : string) (w : world)
    (svc : service) (bytes : string) (e : exn) :
  authenticate env (Some "drive") "v3"
    ["https://www.googleapis.com/auth/drive.file"] = Ok svc ->
  fs w !! path = Some bytes ->
  files_create svc (upload_metadata (clock w)) (upload_media path bytes) "id" = Raise e ->
  (upload_csv_to_google_sheets env path w).2 = Raise e /\
  calls (upload_csv_to_google_sheets env path w).1
  = calls w ++
    [Authenticate (Some "drive") "v3" ["https://www.googleapis.com/auth/drive.file"];
     FilesCreate (upload_metadata (clock w)) (upload_media path bytes) "id"] /\
  stdout (upload_csv_to_google_sheets env path w).1 = stdout w.
Proof.
  intros Hauth Hfile Hcreate. rewrite upload_run. cbv zeta. unfold drive_scopes.
  rewrite Hauth, Hfile, Hcreate. cbn. rewrite <- app_assoc. repeat split.
Qed.

Lemma upload_creation_failure_witness :
  (upload_csv_to_google_sheets (env_with failing_service) "/tmp/campaign_report.csv"
     (set_fs {["/tmp/campaign_report.csv" := example_file]} empty_world)).2
  = Raise (RemoteError "503").
Proof.
  apply (upload_creation_failure (env_with failing_service) "/tmp/campaign_report.csv"
           (set_fs {["/tmp/campaign_report.csv" := example_file]} empty_world)
           failing_service example_file (RemoteError "503")); reflexivity.
Defined.

(** X14. The uploader only reads: after any call, successful or not, every
    file is what it was; in particular the uploaded file is neither removed
    nor changed. *)
Theorem upload_leaves_files_alone (env : environment) (path : string) (w : world) :
  fs (upload_csv_to_google_sheets env path w).1 = fs w.
Proof.
  rewrite upload_run. cbv zeta.
  destruct (authenticate env _ _ _) as [svc | e]; [| reflexivity].
  destruct (fs w !! path) as [bytes |]; [| reflexivity].
  destruct (files_create svc _ _ _); reflexivity.
Qed.

(** X15. The uploader prints its one line exactly when it succeeds: on
    success standard output grows by the message built from the returned
    identifier, on any failure it is unchanged. *)
Theorem upload_prints_on_success_only
    (env : environment) (path : string) (w : world) :
  stdout (upload_csv_to_google_sheets env path w).1
  = match (upload_csv_to_google_sheets env path w).2 with
    | Ok id =>
        stdout w ++
        ["File with ID: " +:+ String DQUOTE (py_str id)
         +:+ String DQUOTE " has been uploaded."]
    | Raise _ => stdout w
    end.
Proof.
  rewrite upload_run. cbv zeta.
  destruct (authenticate env _ _ _) as [svc | e]; [| reflexivity].
  destruct (fs w !! path) as [bytes |]; [| reflexivity].
  destruct (files_create svc _ _ _); reflexivity.
Qed.

(** X16. When the answer of the creation request has no [id] field, the
    uploader does not fail: it returns [None] and prints the message with
    the text [None] in place of the identifier. *)
Theorem upload_answer_without_id
    (env : environment) (path : string) (w : world)
    (svc : service) (bytes : string) (file : dict scalar) :
  authenticate env (Some "drive") "v3"
    ["https://www.googleapis.com/auth/drive.file"] = Ok svc ->
  fs w !! path = Some bytes ->
  files_create svc (upload_metadata (clock w)) (upload_media path bytes) "id" = Ok file ->
  dict_get file "id" = None ->
  (upload_csv_to_google_sheets env path w).2 = Ok PNone /\
  stdout (upload_csv_to_google_sheets env path w).1
  = stdout w ++
    ["File with ID: " +:+ String DQUOTE ("None" +:+ String DQUOTE " has been uploaded.")].
Proof.
  intros Hauth Hfile Hcreate Hid. rewrite upload_run. cbv zeta. unfold drive_scopes.
  rewrite Hauth, Hfile, Hcreate. unfold dict_get_default. rewrite Hid. split; reflexivity.
Qed.

Lemma upload_answer_without_id_witness :
  (upload_csv_to_google_sheets (env_with idless_service) "/tmp/campaign_report.csv"
     (set_fs {["/tmp/campaign_report.csv" := example_file]} empty_world)).2
  = Ok PNone.
Proof.
  apply (upload_answer_without_id (env_with idless_service) "/tmp/campaign_report.csv"
           (set_fs {["/tmp/campaign_report.csv" := example_file]} empty_world)
           idless_service example_file [("kind", PStr "drive#file")]); reflexivity.
Defined.

Lemma upload_success_run
    (env : environment) (path : string) (w : world)
    (svc : service) (bytes : string) (file : dict scalar) :
  authenticate env (Some "drive") "v3" drive_scopes = Ok svc ->
  fs w !! path = Some bytes ->
  files_create svc (upload_metadata (clock w)) (upload_media path bytes) "id" = Ok file ->
  upload_csv_to_google_sheets env path w
  = (printed (upload_message (dict_get_default file "id"))
       (logged (FilesCreate (upload_metadata (clock w)) (upload_media path bytes) "id")
          (logged (Authenticate (Some "drive") "v3" drive_scopes) w)),
     Ok (dict_get_default file "id")).
Proof.
  intros Hauth Hfile Hcreate. rewrite upload_run. cbv zeta.
  now rewrite Hauth, Hfile, Hcreate.
Qed.

(** X17. Nothing deduplicates uploads: two successful calls on the same
    path, the second at a later moment, send two creation requests, each
    preceded by its own authentication, each carrying the content of the
    file, and each named after the time of its own call. *)
Theorem upload_twice_creates_twice
    (env : environment) (path : string) (w : world) (later : string)
    (svc : service) (bytes : string) (file1 file2 : dict scalar) :
  authenticate env (Some "drive") "v3"
    ["https://www.googleapis.com/auth/drive.file"] = Ok svc ->
  fs w !! path = Some bytes ->
  files_create svc (upload_metadata (clock w)) (upload_media path bytes) "id" = Ok file1 ->
  files_create svc (upload_metadata later) (upload_media path bytes) "id" = Ok file2 ->
  calls (upload_csv_to_google_sheets env path
           (set_clock later (upload_csv_to_google_sheets env path w).1)).1
  = calls w ++
    [Authenticate (Some "drive") "v3" ["https://www.googleapis.com/auth/drive.file"];
     FilesCreate (upload_metadata (clock w)) (upload_media path bytes) "id";
     Authenticate (Some "drive") "v3" ["https://www.googleapis.com/auth/drive.file"];
     FilesCreate (upload_metadata later) (upload_media path bytes) "id"] /\
  (upload_csv_to_google_sheets env path
     (set_clock later (upload_csv_to_google_sheets env path w).1)).2
  = Ok (dict_get_default file2 "id").
Proof.
  intros Hauth Hfile Hcreate1 Hcreate2. fold drive_scopes in Hauth |- *.
  rewrite (upload_success_run env path w svc bytes file1 Hauth Hfile Hcreate1).
  cbn [fst snd].
  match goal with
  | |- context [upload_csv_to_google_sheets env path ?w1] =>
      rewrite (upload_success_run env path w1 svc bytes file2 Hauth Hfile Hcreate2)
  end.
  cbn [fst snd calls clock printed logged set_clock]. split; [| reflexivity].
  rewrite <- !app_assoc. reflexivity.
Qed.

Lemma upload_twice_creates_twice_witness :
  (upload_csv_to_google_sheets sample_env "/tmp/campaign_report.csv"
     (set_clock "1700000060.5"
        (upload_csv_to_google_sheets sample_env "/tmp/campaign_report.csv"
           (set_fs {["/tmp/campaign_report.csv" := example_file]} empty_world)).1)).2
  = Ok (PStr "1AbC").
Proof.
  refine (proj2 (upload_twice_creates_twice sample_env "/tmp/campaign_report.csv"
    (set_fs {["/tmp/campaign_report.csv" := example_file]} empty_world)
    "1700000060.5"
    (service_answering [("rows", [])]) example_file
    [("id", PStr "1AbC")] [("id", PStr "1AbC")] _ _ _ _));
    reflexivity.
Defined.

(** ** The main run *)

Lemma main_after_fetch
    (env : environment) (w : world) (svc : service) (resp : response) (rep : report) :
  authenticate env None "v1beta" admob_scopes = Ok svc ->
  campaignReport_generate svc ("accounts/" +:+ PUBLISHER_ID) fixed_request = Ok resp ->
  dict_get resp "rows" = Some rep ->
  main env w =
    match save_to_csv rep default_csv_output_path
            (logged (CampaignReportGenerate ("accounts/" +:+ PUBLISHER_ID) fixed_request)
               (logged (Authenticate None "v1beta" admob_scopes) w)) with
    | (w3, Raise e) => (w3, Raise e)
    | (w3, Ok _) =>
        ((upload_csv_to_google_sheets env default_csv_output_path w3).1,
         let? _ := (upload_csv_to_google_sheets env default_csv_output_path w3).2 in
         Ok tt)
    end.
Proof.
  intros Hauth Hsvc Hrows. rewrite main_run. cbv zeta. rewrite Hauth.
  rewrite generate_campaign_report_run, Hsvc.
  unfold rbind at 1, getitem. now rewrite Hrows.
Qed.

(** X18. A run in which everything succeeds on a non-empty report uploads
    exactly what it has just exported: it makes four calls in order (AdMob
    authentication, report generation, Drive authentication, creation), the
    media of the creation request is the content written to
    [/tmp/campaign_report.csv], and that file is left in place. *)
Theorem main_uploads_what_it_exports
    (env : environment) (w : world) (svc dsvc : service) (resp : response)
    (r0 : row) (rest : report) (header : list string) (cells : list (list scalar))
    (file : dict scalar) :
  let content := file_text (header :: map (map field_text) cells) in
  authenticate env None "v1beta"
    ["https://www.googleapis.com/auth/admob.readonly";
     "https://www.googleapis.com/auth/drive.file"] = Ok svc ->
  campaignReport_generate svc ("accounts/" +:+ PUBLISHER_ID) fixed_request = Ok resp ->
  dict_get resp "rows" = Some (r0 :: rest) ->
  header_of r0 = Ok header ->
  comprehension row_cells (r0 :: rest) = Ok cells ->
  authenticate env (Some "drive") "v3"
    ["https://www.googleapis.com/auth/drive.file"] = Ok dsvc ->
  files_create dsvc (upload_metadata (clock w))
    (upload_media "/tmp/campaign_report.csv" content) "id" = Ok file ->
  (main env w).2 = Ok tt /\
  fs (main env w).1 = <["/tmp/campaign_report.csv" := content]> (fs w) /\
  calls (main env w).1
  = calls w ++
    [Authenticate None "v1beta"
       ["https://www.googleapis.com/auth/admob.readonly";
        "https://www.googleapis.com/auth/drive.file"];
     CampaignReportGenerate ("accounts/" +:+ PUBLISHER_ID) fixed_request;
     Authenticate (Some "drive") "v3" ["https://www.googleapis.com/auth/drive.file"];
     FilesCreate (upload_metadata (clock w))
       (upload_media "/tmp/campaign_report.csv" content) "id"].
Proof.
  intros content Hauth Hsvc Hrows Hh Hc Hdrive Hcreate.
  fold admob_scopes in Hauth |- *. fold drive_scopes in Hdrive |- *.
  rewrite (main_after_fetch env w svc resp (r0 :: rest) Hauth Hsvc Hrows).
  rewrite (save_to_csv_written _ _ _ _ _ _ Hh Hc). fold content.
  fold default_csv_output_path in Hcreate |- *.
  match goal with
  | |- context [upload_csv_to_google_sheets env default_csv_output_path ?w3] =>
      rewrite (upload_success_run env default_csv_output_path w3 dsvc content file Hdrive
                 (lookup_insert_eq _ _ _) Hcreate)
  end.
  cbn [fst snd rbind fs calls printed logged set_fs].
  split; [reflexivity |]. split; [reflexivity |].
  rewrite <- !app_assoc. reflexivity.
Qed.

Lemma main_uploads_what_it_exports_witness :
  (main (env_answering [("rows", example_report)]) empty_world).2 = Ok tt.
Proof.
  refine (proj1 (main_uploads_what_it_exports
    (env_answering [("rows", example_report)]) empty_world
    (service_answering [("rows", example_report)])
    (service_answering [("rows", example_report)])
    [("rows", example_report)] example_row1 [example_row2]
    ["CAMPAIGN_NAME"; "COUNTRY"; "AD_NAME"; "IMPRESSIONS"; "INSTALLS"; "CLICKS"]
    [[PStr "Fall Promo"; PStr "US"; PStr "Ad1"; PInt 100; PInt 5; PInt 20];
     [PStr "Fall Promo"; PStr "CA"; PStr "Ad1"; PInt 50; PInt 2; PInt 9]]
    [("id", PStr "1AbC")] _ _ _ _ _ _ _));
    reflexivity.
Defined.

(** X19. When the fetched report is empty and a file from an earlier run
    is still at [/tmp/campaign_report.csv], the run uploads that old file:
    the media of the creation request is the old content, the run ends
    normally and the file is left as it was. *)
Theorem main_empty_report_uploads_stale_file
    (env : environment) (w : world) (svc dsvc : service) (resp : response)
    (old : string) (file : dict scalar) :
  authenticate env None "v1beta"
    ["https://www.googleapis.com/auth/admob.readonly";
     "https://www.googleapis.com/auth/drive.file"] = Ok svc ->
  campaignReport_generate svc ("accounts/" +:+ PUBLISHER_ID) fixed_request = Ok resp ->
  dict_get resp "rows" = Some [] ->
  fs w !! "/tmp/campaign_report.csv" = Some old ->
  authenticate env (Some "drive") "v3"
    ["https://www.googleapis.com/auth/drive.file"] = Ok dsvc ->
  files_create dsvc (upload_metadata (clock w))
    (upload_media "/tmp/campaign_report.csv" old) "id" = Ok file ->
  (main env w).2 = Ok tt /\
  fs (main env w).1 = fs w /\
  calls (main env w).1
  = calls w ++
    [Authenticate None "v1beta"
       ["https://www.googleapis.com/auth/admob.readonly";
        "https://www.googleapis.com/auth/drive.file"];
     CampaignReportGenerate ("accounts/" +:+ PUBLISHER_ID) fixed_request;
     Authenticate (Some "drive") "v3" ["https://www.googleapis.com/auth/drive.file"];
     FilesCreate (upload_metadata (clock w))
       (upload_media "/tmp/campaign_report.csv" old) "id"].
Proof.
  intros Hauth Hsvc Hrows Hold Hdrive Hcreate.
  fold admob_scopes in Hauth |- *. fold drive_scopes in Hdrive |- *.
  rewrite (main_after_fetch env w svc resp [] Hauth Hsvc Hrows).
  cbn [save_to_csv ret]. fold default_csv_output_path in Hold, Hcreate |- *.
  match goal with
  | |- context [upload_csv_to_google_sheets env default_csv_output_path ?w3] =>
      rewrite (upload_success_run env default_csv_output_path w3 dsvc old file Hdrive
                 Hold Hcreate)
  end.
  cbn [fst snd rbind fs calls printed logged].
  split; [reflexivity |]. split; [reflexivity |].
  rewrite <- !app_assoc. reflexivity.
Qed.

Lemma main_empty_report_uploads_stale_file_witness :
  (main sample_env
     (set_fs {["/tmp/campaign_report.csv" := "last week"]} empty_world)).2 = Ok tt.
Proof.
  refine (proj1 (main_empty_report_uploads_stale_file sample_env
    (set_fs {["/tmp/campaign_report.csv" := "last week"]} empty_world)
    (service_answering [("rows", [])]) (service_answering [("rows", [])])
    [("rows", [])] "last week" [("id", PStr "1AbC")] _ _ _ _ _ _));
    reflexivity.
Defined.

(** X20. When the AdMob authentication fails, the run ends with that
    failure at once: no report is requested, no file is touched and no
    upload is attempted. *)
Theorem main_authentication_failure (env : environment) (w : world) (e : exn) :
  authenticate env None "v1beta"
    ["https://www.googleapis.com/auth/admob.readonly";
     "https://www.googleapis.com/auth/drive.file"] = Raise e ->
  (main env w).2 = Raise e /\
  fs (main env w).1 = fs w /\
  calls (main env w).1
  = calls w ++
    [Authenticate None "v1beta"
       ["https://www.googleapis.com/auth/admob.readonly";
        "https://www.googleapis.com/auth/drive.file"]].
Proof.
  intros Hauth. fold admob_scopes in Hauth |- *.
  rewrite main_run. cbv zeta. rewrite Hauth. repeat split.
Qed.

Lemma main_authentication_failure_witness :
  (main failing_env empty_world).2 = Raise (RemoteError "invalid_grant").
Proof.
  apply (main_authentication_failure failing_env empty_world
           (RemoteError "invalid_grant")).
  reflexivity.
Defined.

(** X21. When the fetcher raises, because the reporting call failed or its
    answer has no ['rows'] entry, the run ends with that exception: nothing
    is exported, no Drive authentication and no upload take place. *)
Theorem main_fetch_failure
    (env : environment) (w : world) (svc : service) (e : exn) :
  authenticate env None "v1beta"
    ["https://www.googleapis.com/auth/admob.readonly";
     "https://www.googleapis.com/auth/drive.file"] = Ok svc ->
  (generate_campaign_report svc PUBLISHER_ID w).2 = Raise e ->
  (main env w).2 = Raise e /\
  fs (main env w).1 = fs w /\
  calls (main env w).1
  = calls w ++
    [Authenticate None "v1beta"
       ["https://www.googleapis.com/auth/admob.readonly";
        "https://www.googleapis.com/auth/drive.file"];
     CampaignReportGenerate ("accounts/" +:+ PUBLISHER_ID) fixed_request].
Proof.
  intros Hauth Hfetch. fold admob_scopes in Hauth |- *.
  rewrite generate_campaign_report_run in Hfetch. cbn [snd] in Hfetch.
  rewrite main_run. cbv zeta. rewrite Hauth, generate_campaign_report_run, Hfetch.
  cbn [fst snd fs calls logged]. split; [reflexivity |]. split; [reflexivity |].
  now rewrite <- app_assoc.
Qed.

Lemma main_fetch_failure_witness :
  (main (env_with failing_service) empty_world).2 = Raise (RemoteError "503").
Proof.
  apply (main_fetch_failure (env_with failing_service) empty_world failing_service
           (RemoteError "503")); reflexivity.
Defined.


(** * Values, texts and platforms *)

(** ** What the cells of a row are *)

Lemma first_values_flat (l : list (string * wrapper)) :
  forall cells,
    comprehension first_value (map snd l) = Ok cells ->
    cells = flat_map (fun entry : string * wrapper => take 1 (map snd entry.2)) l.
Proof.
  induction l as [|[k elem] l IH]; intros cells H.
  - now injection H as <-.
  - cbn [map snd comprehension] in H. unfold first_value at 1, values in H.
    destruct (map snd elem) as [|v vs] eqn:E; [discriminate |]. cbn [rbind] in H.
    destruct (comprehension first_value (map snd l)) as [cs | e]; [| discriminate].
    injection H as <-. cbn [flat_map snd]. rewrite E. cbn [take app].
    now rewrite <- (IH cs eq_refl).
Qed.

(** The cells the exporter computes for a row are the values of the row. *)
Lemma row_cells_original (r : row) (cells : list scalar) :
  row_cells r = Ok cells -> cells = original_values r.
Proof.
  unfold row_cells, original_values, getitem.
  destruct (dict_get r "dimensionValues") as [dv|]; [| discriminate].
  destruct (dict_get r "metricValues") as [mv|]; [| discriminate].
  cbn [rbind]. unfold values. rewrite <- map_app. apply first_values_flat.
Qed.

Lemma denotes_str_int (z : Z) :
  option_map Z.of_int (NilZero.int_of_string (str_int z)) = Some z.
Proof.
  unfold str_int. rewrite NilZero.isi.
  - cbn [option_map]. now rewrite DecimalZ.of_to.
  - destruct z; cbn; try discriminate.
    intros [= H]. now apply (DecimalPos.Unsigned.to_uint_nonnil p).
  - destruct z; cbn; try discriminate.
    intros [= H]. now apply (DecimalPos.Unsigned.to_uint_nonnil p).
Qed.

(** The text the writer makes of a value stands for that value. *)
Lemma denotes_field_text (v : scalar) : denotes (field_text v) v.
Proof.
  destruct v as [|[|]|z|s]; cbn [denotes field_text py_str]; try reflexivity.
  apply denotes_str_int.
Qed.

Lemma denotes_map_field_text (cells : list scalar) :
  Forall2 denotes (map field_text cells) cells.
Proof.
  induction cells as [|v cells IH]; constructor; [apply denotes_field_text | exact IH].
Qed.

Lemma map_fst_combine_same_length {A B} (l1 : list A) :
  forall l2 : list B, length l2 = length l1 -> map fst (combine l1 l2) = l1.
Proof.
  induction l1 as [|a l1 IH]; intros [|b l2] H; try discriminate; [reflexivity |].
  cbn [combine map fst]. injection H as H. now rewrite IH.
Qed.

Lemma read_back_rows (header : list string) (rows : report) :
  forall cells,
    comprehension row_cells rows = Ok cells ->
    Forall (fun c => length c = length header) cells ->
    Forall2 (fun line r =>
               map fst (combine header line) = header /\
               Forall2 denotes (map snd (combine header line)) (original_values r))
            (map (map field_text) cells) rows.
Proof.
  induction rows as [|r rows IH]; intros cells Hc Hw.
  - injection Hc as <-. constructor.
  - cbn [comprehension] in Hc. destruct (row_cells r) as [c | e] eqn:Hr; [| discriminate].
    cbn [rbind] in Hc. destruct (comprehension row_cells rows) as [cs | e]; [| discriminate].
    injection Hc as <-. inversion Hw as [|c' cs' Hlen Hws]; subst.
    cbn [map]. constructor; [| now apply IH].
    rewrite map_fst_combine_same_length, map_snd_combine_same_length
      by now rewrite length_map.
    split; [reflexivity |].
    rewrite <- (row_cells_original r c Hr). apply denotes_map_field_text.
Qed.

(** C6, as amended. For a non-empty report of well formed rows with the key
    sets of the first row, the file read back starts with the header, the
    dimension names of the first row and then its metric names, and has one
    record per row, in order. Zipping the header with the record of a row
    pairs every header name with a text, and these texts stand, one by one
    and in the original order, for the row's flattened dimension and metric
    values: a string is reproduced as it is, [None] comes back as the empty
    text, a boolean as [True] or [False], and a number as a decimal text
    that reads as that number. On the two-row example of the specification
    the rows read back are the name and text pairs spelled out below. *)
Theorem csv_round_trip_as_text :
  (forall (r0 : row) (rest : report) (path : string) (w : world),
     forallb well_shaped (r0 :: rest) = true ->
     forallb keys_wf (r0 :: rest) = true ->
     forallb (same_key_sets r0) (r0 :: rest) = true ->
     exists content dv0 mv0 lines,
       save_to_csv (r0 :: rest) path w
       = (set_fs (<[path := content]> (fs w)) w, Ok tt) /\
       dict_get r0 "dimensionValues" = Some dv0 /\
       dict_get r0 "metricValues" = Some mv0 /\
       csv_reader content = (keys dv0 ++ keys mv0) :: lines /\
       Forall2 (fun line r =>
                  map fst (combine (keys dv0 ++ keys mv0) line) = keys dv0 ++ keys mv0 /\
                  Forall2 denotes (map snd (combine (keys dv0 ++ keys mv0) line))
                    (original_values r))
               lines (r0 :: rest))
  /\
  (forall (path : string) (w : world),
     exists content,
       save_to_csv example_report path w
       = (set_fs (<[path := content]> (fs w)) w, Ok tt) /\
       map (combine (hd [] (csv_reader content))) (tl (csv_reader content))
       = [[("CAMPAIGN_NAME", "Fall Promo"); ("COUNTRY", "US"); ("AD_NAME", "Ad1");
           ("IMPRESSIONS", "100"); ("INSTALLS", "5"); ("CLICKS", "20")];
          [("CAMPAIGN_NAME", "Fall Promo"); ("COUNTRY", "CA"); ("AD_NAME", "Ad1");
           ("IMPRESSIONS", "50"); ("INSTALLS", "2"); ("CLICKS", "9")]]).
Proof.
  split.
  - intros r0 rest path w Hshape Hwf Hsame.
    destruct (save_to_csv_shaped r0 rest path w Hshape)
      as (header & cells & Hh & Hc & Hrun).
    assert (Hwf0 : keys_wf r0 = true).
    { cbn [forallb] in Hwf. now apply andb_true_iff in Hwf as [? _]. }
    pose proof (report_cells_width r0 header _ Hwf0 Hh cells Hshape Hwf Hsame Hc)
      as Hwidth.
    assert (H0 : well_shaped r0 = true).
    { cbn [forallb] in Hshape. now apply andb_true_iff in Hshape as [? _]. }
    destruct (well_shaped_inv r0 H0) as (dv0 & mv0 & c0 & Hdv & Hmv & Hh' & _).
    rewrite Hh in Hh'. injection Hh' as ->.
    exists (file_text ((keys dv0 ++ keys mv0) :: map (map field_text) cells)),
      dv0, mv0, (map (map field_text) cells).
    split; [exact Hrun |]. split; [exact Hdv |]. split; [exact Hmv |].
    split; [apply csv_reader_file_text |].
    now apply read_back_rows.
  - intros path w.
    destruct (save_to_csv_shaped example_row1 [example_row2] path w eq_refl)
      as (header & cells & Hh & Hc & Hrun).
    injection Hh as <-. injection Hc as <-.
    eexists. split; [exact Hrun |]. now rewrite csv_reader_file_text.
Qed.

Lemma csv_round_trip_as_text_witness :
  exists content dv0 mv0 lines,
    save_to_csv example_report "/tmp/campaign_report.csv" empty_world
    = (set_fs (<["/tmp/campaign_report.csv" := content]> (fs empty_world)) empty_world,
       Ok tt) /\
    dict_get example_row1 "dimensionValues" = Some dv0 /\
    dict_get example_row1 "metricValues" = Some mv0 /\
    csv_reader content = (keys dv0 ++ keys mv0) :: lines /\
    Forall2 (fun line r =>
               map fst (combine (keys dv0 ++ keys mv0) line) = keys dv0 ++ keys mv0 /\
               Forall2 denotes (map snd (combine (keys dv0 ++ keys mv0) line))
                 (original_values r))
            lines example_report.
Proof.
  apply (proj1 csv_round_trip_as_text example_row1 [example_row2]
           "/tmp/campaign_report.csv" empty_world); reflexivity.
Defined.

(** ** The exporter where nothing is refused *)

Lemma renders_names (pf : platform) (names : list string) :
  forallb (renders pf) (map PStr names) = true.
Proof. induction names as [|n names IH]; [reflexivity | exact IH]. Qed.

Lemma comprehension_field_text_in (pf : platform) (cells : list scalar) :
  forallb (renders pf) cells = true ->
  comprehension (field_text_in pf) cells = Ok (map field_text cells).
Proof.
  induction cells as [|v cells IH]; intros H; [reflexivity |].
  cbn [forallb] in H. apply andb_true_iff in H as [Hv Hcells].
  cbn [comprehension map]. rewrite (IH Hcells).
  destruct v as [| b | z | s]; try reflexivity.
  unfold field_text_in. cbn [renders] in Hv. now destruct (str_error pf z).
Qed.

Lemma writerow_in_agrees
    (pf : platform) (path : string) (cells : list scalar) (w : world) :
  (forall text, write_error pf path text = None) ->
  forallb (renders pf) cells = true ->
  writerow_in pf path cells w = writerow path cells w.
Proof.
  intros Hwrite Hcells. unfold writerow_in, writerow, bind, lift, file_write_in.
  now rewrite (comprehension_field_text_in pf cells Hcells), Hwrite.
Qed.

Lemma for_each_in_agrees (pf : platform) (path : string) (rows : report) :
  (forall text, write_error pf path text = None) ->
  forallb (fun r => forallb (renders pf) (original_values r)) (shaped_prefix rows) = true ->
  forall w,
    for_each rows
      (fun r => let* cells := lift (row_cells r) in writerow_in pf path cells) w
    = for_each rows
        (fun r => let* cells := lift (row_cells r) in writerow path cells) w.
Proof.
  intros Hwrite. induction rows as [|r rows IH]; intros Hrows w; [reflexivity |].
  cbn [for_each]. unfold bind, lift in IH |- *.
  destruct (row_cells r) as [cells | e] eqn:Hr; [| reflexivity].
  cbn [shaped_prefix] in Hrows. destruct (well_shaped r) eqn:Hshape.
  - cbn [forallb] in Hrows. apply andb_true_iff in Hrows as [Hcells Hrows].
    rewrite <- (row_cells_original r cells Hr) in Hcells.
    rewrite (writerow_in_agrees pf path cells w Hwrite Hcells).
    destruct (writerow path cells w) as [w' [[] | e]]; [| reflexivity].
    now apply IH.
  - destruct (row_cells_ill r Hshape) as (e & He & _). congruence.
Qed.

(** Where the file can be opened and written and the values of the rows
    that get written can be turned into text, the exporter behaves as on
    the platform that refuses nothing. *)
Lemma save_to_csv_in_agrees
    (pf : platform) (rep : report) (path : string) (w : world) :
  open_error pf path = None ->
  (forall text, write_error pf path text = None) ->
  forallb (fun r => forallb (renders pf) (original_values r)) (shaped_prefix rep) = true ->
  save_to_csv_in pf rep path w = save_to_csv rep path w.
Proof.
  intros Hopen Hwrite Hrows. destruct rep as [|r0 rest]; [reflexivity |].
  unfold save_to_csv_in, save_to_csv, open_in. rewrite Hopen.
  pose proof (for_each_in_agrees pf path (r0 :: rest) Hwrite Hrows) as Hloop.
  unfold bind, lift in Hloop |- *.
  destruct (open_w path w) as [w1 [[] | e]]; [| reflexivity].
  destruct (header_of r0) as [header | e]; [| reflexivity].
  rewrite (writerow_in_agrees pf path (map PStr header) w1 Hwrite (renders_names pf header)).
  destruct (writerow path (map PStr header) w1) as [w2 [[] | e]]; [| reflexivity].
  apply Hloop.
Qed.

(** When the file cannot be opened, the exporter ends with the error of
    [open] before it looks at any row, and the world is as before. *)
Lemma save_to_csv_in_open_refused
    (pf : platform) (r0 : row) (rest : report) (path : string) (w : world) (e : exn) :
  open_error pf path = Some e ->
  save_to_csv_in pf (r0 :: rest) path w = (w, Raise e).
Proof.
  intros Hopen. unfold save_to_csv_in, open_in. rewrite Hopen. reflexivity.
Qed.

Lemma shaped_prefix_renders (pf : platform) (rep : report) :
  forallb (fun r => forallb (renders pf) (original_values r)) rep = true ->
  forallb (fun r => forallb (renders pf) (original_values r)) (shaped_prefix rep) = true.
Proof.
  induction rep as [|r rep IH]; intros H; [reflexivity |].
  cbn [forallb] in H. apply andb_true_iff in H as [Hr Hrep].
  cbn [shaped_prefix]. destruct (well_shaped r); [| reflexivity].
  cbn [forallb]. now rewrite Hr, (IH Hrep).
Qed.

Lemma shaped_prefix_shaped (rep : report) :
  forallb well_shaped rep = true -> shaped_prefix rep = rep.
Proof.
  induction rep as [|r rep IH]; intros H; [reflexivity |].
  cbn [forallb] in H. apply andb_true_iff in H as [Hr Hrep].
  cbn [shaped_prefix]. now rewrite Hr, (IH Hrep).
Qed.

Lemma shaped_prefix_stops (good : report) (r : row) (rest : report) :
  forallb well_shaped good = true -> well_shaped r = false ->
  shaped_prefix (good ++ r :: rest) = good.
Proof.
  induction good as [|g good IH]; intros Hgood Hr.
  - cbn [app shaped_prefix]. now rewrite Hr.
  - cbn [forallb] in Hgood. apply andb_true_iff in Hgood as [Hg Hgood].
    cbn [app shaped_prefix]. now rewrite Hg, (IH Hgood Hr).
Qed.

Lemma renders_willing (rep : report) :
  forallb (fun r => forallb (renders willing) (original_values r)) rep = true.
Proof.
  induction rep as [|r rep IH]; [reflexivity |]. cbn [forallb]. rewrite IH, andb_true_r.
  induction (original_values r) as [|v vs IHv]; [reflexivity |].
  cbn [forallb]. rewrite IHv. now destruct v.
Qed.

(** On the platform that refuses nothing, the exporter and the run are the
    ones of the header's convention. *)
Lemma save_to_csv_in_willing (rep : report) (path : string) (w : world) :
  save_to_csv_in willing rep path w = save_to_csv rep path w.
Proof.
  apply save_to_csv_in_agrees; [reflexivity | reflexivity |].
  apply renders_willing.
Qed.

Lemma main_in_willing (env : environment) (w : world) :
  main_in willing env w = main env w.
Proof.
  unfold main_in, main, bind.
  destruct (call_authenticate env None "v1beta" _ w) as [w1 [svc | e]]; [| reflexivity].
  destruct (generate_campaign_report svc PUBLISHER_ID w1) as [w2 [rep | e]];
    [| reflexivity].
  now rewrite save_to_csv_in_willing.
Qed.

(** C9. Take a non-empty report whose rows all have both value mappings
    and no empty wrapper, whatever keys the rows after the first have and in
    whatever order, and a platform on which the output file can be opened
    and written and the values can be turned into text. The exporter checks
    nothing and returns normally. The record it writes for a row, read
    back, holds one text per entry of the row, and these texts stand for
    the row's own values in the row's own order, dimensions then metrics:
    nothing is reordered, padded or dropped to fit the header. On the
    example where the second row lacks AD_NAME and lists its other keys in
    another order, the third line of the file is [CA,Fall Promo,9,50,2], so
    that zipping it with the header puts [CA] under CAMPAIGN_NAME and the
    clicks under AD_NAME. *)
Theorem save_to_csv_keeps_row_order :
  (forall (pf : platform) (r0 : row) (rest : report) (path : string) (w : world),
     forallb well_shaped (r0 :: rest) = true ->
     open_error pf path = None ->
     (forall text, write_error pf path text = None) ->
     forallb (fun r => forallb (renders pf) (original_values r)) (r0 :: rest) = true ->
     exists content,
       save_to_csv_in pf (r0 :: rest) path w
       = (set_fs (<[path := content]> (fs w)) w, Ok tt) /\
       length (csv_reader content) = 1 + length (r0 :: rest) /\
       forall i r,
         (r0 :: rest) !! i = Some r ->
         exists record,
           csv_reader content !! S i = Some record /\
           Forall2 denotes record (original_values r))
  /\
  (forall (path : string) (w : world),
     no_such_dir path = None ->
     exists content,
       save_to_csv_in (cpython no_such_dir) [example_row1; shuffled_row] path w
       = (set_fs (<[path := content]> (fs w)) w, Ok tt) /\
       text_lines content
       = ["CAMPAIGN_NAME,COUNTRY,AD_NAME,IMPRESSIONS,INSTALLS,CLICKS";
          "Fall Promo,US,Ad1,100,5,20";
          "CA,Fall Promo,9,50,2"] /\
       map (combine (hd [] (csv_reader content))) (tl (csv_reader content))
       = [[("CAMPAIGN_NAME", "Fall Promo"); ("COUNTRY", "US"); ("AD_NAME", "Ad1");
           ("IMPRESSIONS", "100"); ("INSTALLS", "5"); ("CLICKS", "20")];
          [("CAMPAIGN_NAME", "CA"); ("COUNTRY", "Fall Promo"); ("AD_NAME", "9");
           ("IMPRESSIONS", "50"); ("INSTALLS", "2")]]).
Proof.
  split.
  - intros pf r0 rest path w Hshape Hopen Hwrite Hrender.
    rewrite (save_to_csv_in_agrees pf _ path w Hopen Hwrite
               (shaped_prefix_renders pf _ Hrender)).
    destruct (save_to_csv_shaped r0 rest path w Hshape)
      as (header & cells & Hh & Hc & Hrun).
    destruct (shaped_cells _ Hshape) as (cells' & Hc' & Hlen).
    rewrite Hc in Hc'. injection Hc' as <-.
    exists (file_text (header :: map (map field_text) cells)).
    split; [exact Hrun |]. rewrite csv_reader_file_text.
    split; [cbn [length]; now rewrite length_map, Hlen |].
    intros i r Hi.
    destruct (cells_lookup _ _ _ _ Hc Hi) as (own & Hown & Hlook).
    exists (map field_text own). split; [exact Hlook |].
    rewrite <- (row_cells_original r own Hown). apply denotes_map_field_text.
  - intros path w Hpath.
    rewrite (save_to_csv_in_agrees (cpython no_such_dir) _ path w Hpath
               (fun _ => eq_refl)) by (vm_compute; reflexivity).
    destruct (save_to_csv_shaped example_row1 [shuffled_row] path w eq_refl)
      as (header & cells & Hh & Hc & Hrun).
    injection Hh as <-. injection Hc as <-.
    eexists. split; [exact Hrun |]. split; [reflexivity |].
    now rewrite csv_reader_file_text.
Qed.

Lemma save_to_csv_keeps_row_order_witness :
  exists content,
    save_to_csv_in (cpython no_such_dir) [example_row1; shuffled_row]
      "/tmp/campaign_report.csv" empty_world
    = (set_fs (<["/tmp/campaign_report.csv" := content]> (fs empty_world)) empty_world,
       Ok tt) /\
    length (csv_reader content) = 1 + length [example_row1; shuffled_row] /\
    forall i r,
      [example_row1; shuffled_row] !! i = Some r ->
      exists record,
        csv_reader content !! S i = Some record /\
        Forall2 denotes record (original_values r).
Proof.
  apply (proj1 save_to_csv_keeps_row_order (cpython no_such_dir)
           example_row1 [shuffled_row] "/tmp/campaign_report.csv" empty_world);
    [reflexivity | reflexivity | intros text; reflexivity | vm_compute; reflexivity].
Defined.

(** On a path that cannot be opened the same report gets no further than
    [open]. *)
Example save_to_csv_unwritable_path :
  save_to_csv_in (cpython no_such_dir) [example_row1; shuffled_row]
    "/nonexistent/campaign_report.csv" empty_world
  = (empty_world, Raise (FileNotFoundError "/nonexistent/campaign_report.csv")).
Proof. now apply save_to_csv_in_open_refused. Qed.

Lemma forallb_false_existsb {A} (p : A -> bool) (l : list A) :
  forallb p l = false -> existsb (fun x => negb (p x)) l = true.
Proof.
  induction l as [|a l IH]; intros H; [discriminate |].
  cbn [forallb existsb] in H |- *. destruct (p a); [now apply IH | reflexivity].
Qed.

(** X1. On a platform where the output file can be opened and written and
    the values of the report can be turned into text, the exporter returns
    normally exactly when every row of the report has both value mappings
    and no empty value wrapper; on the empty report this holds trivially. *)
Theorem save_to_csv_ok_iff_shaped
    (pf : platform) (rep : report) (path : string) (w : world) :
  open_error pf path = None ->
  (forall text, write_error pf path text = None) ->
  forallb (fun r => forallb (renders pf) (original_values r)) rep = true ->
  (save_to_csv_in pf rep path w).2 = Ok tt <-> forallb well_shaped rep = true.
Proof.
  intros Hopen Hwrite Hrender.
  rewrite (save_to_csv_in_agrees pf rep path w Hopen Hwrite
             (shaped_prefix_renders pf rep Hrender)).
  destruct rep as [|r0 rest]; [split; reflexivity |]. split.
  - intros H. destruct (forallb well_shaped (r0 :: rest)) eqn:Hshape; [reflexivity |].
    apply forallb_false_existsb in Hshape. rewrite save_to_csv_run in H.
    destruct (header_of r0) as [header | e]; [| discriminate H].
    destruct (rows_outcome_ill (r0 :: rest) (record_text header) Hshape)
      as (e & cells & _ & _ & Hout).
    rewrite Hout in H. discriminate H.
  - intros Hshape.
    destruct (save_to_csv_shaped r0 rest path w Hshape) as (header & cells & _ & _ & Hrun).
    now rewrite Hrun.
Qed.

Lemma save_to_csv_ok_iff_shaped_witness :
  (save_to_csv_in (cpython no_such_dir) example_report "/tmp/campaign_report.csv"
     empty_world).2 = Ok tt
  <-> forallb well_shaped example_report = true.
Proof.
  apply (save_to_csv_ok_iff_shaped (cpython no_such_dir) example_report
           "/tmp/campaign_report.csv" empty_world);
    [reflexivity | intros text; reflexivity | vm_compute; reflexivity].
Defined.

(** ** The main run on a platform *)

Lemma main_in_after_fetch
    (pf : platform) (env : environment) (w : world)
    (svc : service) (resp : response) (rep : report) :
  authenticate env None "v1beta" admob_scopes = Ok svc ->
  campaignReport_generate svc ("accounts/" +:+ PUBLISHER_ID) fixed_request = Ok resp ->
  dict_get resp "rows" = Some rep ->
  main_in pf env w =
    match save_to_csv_in pf rep default_csv_output_path
            (logged (CampaignReportGenerate ("accounts/" +:+ PUBLISHER_ID) fixed_request)
               (logged (Authenticate None "v1beta" admob_scopes) w)) with
    | (w3, Raise e) => (w3, Raise e)
    | (w3, Ok _) =>
        ((upload_csv_to_google_sheets env default_csv_output_path w3).1,
         let? _ := (upload_csv_to_google_sheets env default_csv_output_path w3).2 in
         Ok tt)
    end.
Proof.
  intros Hauth Hsvc Hrows.
  unfold main_in, call_authenticate. unfold bind at 1. unfold bind at 1.
  unfold log_call, lift. fold (logged (Authenticate None "v1beta" admob_scopes) w).
  fold admob_scopes. rewrite Hauth. unfold bind at 1.
  rewrite generate_campaign_report_run, Hsvc.
  unfold rbind at 1, getitem. rewrite Hrows.
  unfold bind at 1.
  destruct (save_to_csv_in pf rep default_csv_output_path _) as [w3 [[] | e]];
    [| reflexivity].
  unfold bind at 1.
  destruct (upload_csv_to_google_sheets env default_csv_output_path w3) as [w4 [v | e]];
    reflexivity.
Qed.

Lemma save_to_csv_ill_world (rep : report) (path : string) (w : world) :
  rep <> [] ->
  existsb (fun r => negb (well_shaped r)) rep = true ->
  exists cells,
    comprehension row_cells (shaped_prefix rep) = Ok cells /\
    (save_to_csv rep path w).1 = set_fs (<[path := partial_file rep cells]> (fs w)) w.
Proof.
  intros Hne Hill. destruct rep as [|r0 rest]; [contradiction |].
  rewrite save_to_csv_run. unfold partial_file.
  destruct (header_of r0) as [header | e] eqn:Hh.
  - destruct (rows_outcome_ill (r0 :: rest) (record_text header) Hill)
      as (e & cells & _ & Hcs & Hout).
    exists cells. split; [exact Hcs |]. now rewrite Hout.
  - destruct (header_of_ill r0 e Hh) as [Hr _].
    exists []. split; [| reflexivity]. cbn [shaped_prefix]. now rewrite Hr.
Qed.

Lemma existsb_ill_app (good : report) (r : row) (rest : report) :
  well_shaped r = false ->
  existsb (fun r => negb (well_shaped r)) (good ++ r :: rest) = true.
Proof.
  intros Hr. rewrite existsb_app. cbn [existsb]. rewrite Hr.
  cbn [negb orb]. apply orb_true_r.
Qed.

(** X22. When the fetched report has a row that is not well shaped, and the
    output file can be opened and written and the rows before that row can
    be turned into text, the run ends with the exception of the first such
    row and never reaches the upload: no Drive authentication and no
    creation request are made. By then [/tmp/campaign_report.csv] has been
    created or truncated: whatever it held before, it now holds nothing if
    the header could not be built, and otherwise the header and the records
    of the rows before that row; every other file is as before. *)
Theorem main_export_failure
    (pf : platform) (env : environment) (w : world) (svc : service) (resp : response)
    (good : report) (r : row) (rest : report) (cells : list (list scalar)) :
  authenticate env None "v1beta"
    ["https://www.googleapis.com/auth/admob.readonly";
     "https://www.googleapis.com/auth/drive.file"] = Ok svc ->
  campaignReport_generate svc ("accounts/" +:+ PUBLISHER_ID) fixed_request = Ok resp ->
  dict_get resp "rows" = Some (good ++ r :: rest) ->
  forallb well_shaped good = true ->
  well_shaped r = false ->
  comprehension row_cells good = Ok cells ->
  open_error pf "/tmp/campaign_report.csv" = None ->
  (forall text, write_error pf "/tmp/campaign_report.csv" text = None) ->
  forallb (fun r => forallb (renders pf) (original_values r)) good = true ->
  (main_in pf env w).2 = Raise (row_exn r) /\
  fs (main_in pf env w).1
  = <["/tmp/campaign_report.csv" := partial_file (good ++ r :: rest) cells]> (fs w) /\
  calls (main_in pf env w).1
  = calls w ++
    [Authenticate None "v1beta"
       ["https://www.googleapis.com/auth/admob.readonly";
        "https://www.googleapis.com/auth/drive.file"];
     CampaignReportGenerate ("accounts/" +:+ PUBLISHER_ID) fixed_request].
Proof.
  intros Hauth Hsvc Hrows Hgood Hr Hcells Hopen Hwrite Hrender.
  fold admob_scopes in Hauth |- *. fold default_csv_output_path in Hopen, Hwrite |- *.
  rewrite (main_in_after_fetch pf env w svc resp _ Hauth Hsvc Hrows).
  match goal with
  | |- context [save_to_csv_in pf ?rep ?p ?w2] =>
      rewrite (save_to_csv_in_agrees pf rep p w2 Hopen Hwrite);
      [ pose proof (save_to_csv_raise_first_ill good r rest p w2 Hgood Hr) as Hraise;
        destruct (save_to_csv_ill_world rep p w2) as (cells' & Hcells' & Hworld);
        [ now destruct good | now apply existsb_ill_app | ];
        destruct (save_to_csv rep p w2) as [w3 res]
      | now rewrite (shaped_prefix_stops good r rest Hgood Hr) ]
  end.
  rewrite (shaped_prefix_stops good r rest Hgood Hr), Hcells in Hcells'.
  injection Hcells' as <-.
  cbn [fst snd] in Hraise, Hworld. subst w3 res.
  cbn [fst snd fs calls logged set_fs]. split; [reflexivity |]. split; [reflexivity |].
  now rewrite <- app_assoc.
Qed.

Lemma main_export_failure_witness :
  fs (main_in (cpython no_such_dir)
        (env_answering [("rows", [example_row1; hollow_row])])
        (set_fs {["/tmp/campaign_report.csv" := "last week"]} empty_world)).1
  = <["/tmp/campaign_report.csv" :=
        partial_file [example_row1; hollow_row]
          [[PStr "Fall Promo"; PStr "US"; PStr "Ad1"; PInt 100; PInt 5; PInt 20]]]>
      (fs (set_fs {["/tmp/campaign_report.csv" := "last week"]} empty_world)).
Proof.
  refine (proj1 (proj2 (main_export_failure (cpython no_such_dir)
    (env_answering [("rows", [example_row1; hollow_row])])
    (set_fs {["/tmp/campaign_report.csv" := "last week"]} empty_world)
    (service_answering [("rows", [example_row1; hollow_row])])
    [("rows", [example_row1; hollow_row])] [example_row1] hollow_row []
    [[PStr "Fall Promo"; PStr "US"; PStr "Ad1"; PInt 100; PInt 5; PInt 20]]
    _ _ _ _ _ _ _ _ _)));
    try reflexivity; try (intros text; reflexivity); vm_compute; reflexivity.
Defined.
